(** * The order flow and payment reconciliation of telegram_game_currency_bot.py

    A shallow embedding of the aiogram handlers of the bot, of the Crypto Pay
    client they call, and of the dispatcher that routes Telegram updates to
    them, followed by the properties of the order lifecycle.

    Conventions.
    - A Python [str] is a [string]; one [ascii] stands for one character
      (code points 0..255), so [String.length] is Python's [len].
    - A Python [float] is a binary64 [float] of the kernel.
    - Values decoded from JSON are [pyval]s.
    - A handler is a function on the [world] (FSM storage, the two SQLite
      tables, the messages sent) that ends normally or by raising; what it
      did before raising stays done.
    - Everything outside the source file is read from an [env]: the HTTP
      exchange with Crypto Pay, [uuid4], the clock, aiogram's command filter.
    - A call of the Telegram API ([answer], [edit_text]) is taken by
      Telegram, and then recorded in the world, or refused, and then it
      raises. The handlers of the source are in module [Tg] and read from
      their first argument what Telegram does; [dispatch] and the handlers
      outside [Tg] are those of [Tg] with a Telegram that takes every call. *)

From Stdlib Require Import ZArith List String Ascii Bool Lia.
From Stdlib Require Import Floats.PrimFloat Floats.FloatOps Floats.SpecFloat.
From Stdlib Require Import DecimalString DecimalPos Uint63 Sorted.
From stdpp Require Import base option list gmap strings.

Open Scope Z_scope.

(** ** Python values and builtins *)

Module Py.

(** What [r.json()] can return. A dict is the list of its items. *)
#[local] Unset Elimination Schemes.
Inductive pyval :=
| PNone
| PBool (b : bool)
| PInt (z : Z)
| PFloat (f : float)
| PStr (s : string)
| PList (l : list pyval)
| PDict (d : list (string * pyval)).
#[local] Set Elimination Schemes.

(** The exceptions the handlers can raise. *)
Inductive exn :=
| KeyError
| IndexError
| ValueError
| TypeError
| AttributeError
| OverflowError
| IntegrityError
| InterfaceError
| TelegramAPIError.

(** [bool(v)] *)
Definition truthy (v : pyval) : bool :=
  match v with
  | PNone => false
  | PBool b => b
  | PInt z => negb (z =? 0)
  | PFloat f => negb (PrimFloat.eqb f 0%float)
  | PStr s => negb (String.eqb s "")
  | PList l => match l with [] => false | _ :: _ => true end
  | PDict d => match d with [] => false | _ :: _ => true end
  end.

(** Lookup in the items of a dict. *)
Fixpoint assoc (k : string) (d : list (string * pyval)) : option pyval :=
  match d with
  | [] => None
  | (k', v) :: d' => if String.eqb k k' then Some v else assoc k d'
  end.

(** [v.get(k, dflt)]: only a dict has the method. *)
Definition get (v : pyval) (k : string) (dflt : pyval) : exn + pyval :=
  match v with
  | PDict d => inr (default dflt (assoc k d))
  | _ => inl AttributeError
  end.

(** [v[0]] *)
Definition item0 (v : pyval) : exn + pyval :=
  match v with
  | PList (x :: _) => inr x
  | PList [] => inl IndexError
  | PStr (String c _) => inr (PStr (String c ""))
  | PStr EmptyString => inl IndexError
  | PDict _ => inl KeyError
  | _ => inl TypeError
  end.

(** [v == s] for a str [s]: only an equal str compares equal. *)
Definition eq_str (v : pyval) (s : string) : bool :=
  match v with
  | PStr s' => String.eqb s' s
  | _ => false
  end.

(** [s.startswith(p)] *)
Definition startswith (s p : string) : bool := String.prefix p s.

(** [s.partition(":")] without the separator: the text before and after the
    first colon, when there is one. *)
Fixpoint cut_colon (s : string) : option (string * string) :=
  match s with
  | EmptyString => None
  | String c r =>
      if Ascii.eqb c ":" then Some (EmptyString, r)
      else match cut_colon r with
           | Some (a, b) => Some (String c a, b)
           | None => None
           end
  end.

(** [s.split(":", 1)] *)
Definition split_colon_1 (s : string) : list string :=
  match cut_colon s with
  | Some (a, b) => [a; b]
  | None => [s]
  end.

(** [s.split(":")] *)
Fixpoint split_colon (s : string) : list string :=
  match s with
  | EmptyString => [EmptyString]
  | String c r =>
      if Ascii.eqb c ":" then EmptyString :: split_colon r
      else match split_colon r with
           | h :: t => String c h :: t
           | [] => [String c EmptyString]
           end
  end.

(** [c.isspace()] on code points 0..255: TAB..CR, FS..US, SPACE, NEL, NBSP. *)
Definition isspace (c : ascii) : bool :=
  let n := N_of_ascii c in
  ((9 <=? n) && (n <=? 13) || (28 <=? n) && (n <=? 32) || (n =? 133) || (n =? 160))%N.

(** [s.lstrip()], [s.rstrip()], [s.strip()] *)
Fixpoint lstrip (s : string) : string :=
  match s with
  | EmptyString => EmptyString
  | String c r => if isspace c then lstrip r else s
  end.

Fixpoint rstrip (s : string) : string :=
  match s with
  | EmptyString => EmptyString
  | String c r =>
      match rstrip r with
      | EmptyString => if isspace c then EmptyString else String c EmptyString
      | r' => String c r'
      end
  end.

Definition strip (s : string) : string := rstrip (lstrip s).

(** [str(z)] for an int. *)
Definition str_of_int (z : Z) : string := NilZero.string_of_int (Z.to_int z).

(** [int(s)] for a str, base 10: surrounding whitespace, an optional sign,
    then digits, single underscores allowed between digits. The whitespace
    [int] skips is not that of [isspace]: it keeps the characters below 127
    and skips those of C's [isspace] among them, TAB..CR and SPACE; above,
    it skips NEL and NBSP. FS..US stay and make the text no number. *)
Definition int_space (c : ascii) : bool :=
  let n := N_of_ascii c in
  ((9 <=? n) && (n <=? 13) || (n =? 32) || (n =? 133) || (n =? 160))%N.

Fixpoint int_lstrip (s : string) : string :=
  match s with
  | EmptyString => EmptyString
  | String c r => if int_space c then int_lstrip r else s
  end.

Fixpoint int_rstrip (s : string) : string :=
  match s with
  | EmptyString => EmptyString
  | String c r =>
      match int_rstrip r with
      | EmptyString => if int_space c then EmptyString else String c EmptyString
      | r' => String c r'
      end
  end.

Definition digit (c : ascii) : option Z :=
  let n := N_of_ascii c in
  if ((48 <=? n) && (n <=? 57))%N then Some (Z.of_N n - 48) else None.

(** [digits acc after_digit s]: [after_digit] tells whether the previous
    character was a digit (an underscore must follow one and precede one). *)
Fixpoint digits (acc : Z) (after_digit : bool) (s : string) : option Z :=
  match s with
  | EmptyString => if after_digit then Some acc else None
  | String c r =>
      match digit c with
      | Some d => digits (10 * acc + d) true r
      | None =>
          if Ascii.eqb c "_" && after_digit
          then match r with
               | EmptyString => None
               | String c' _ =>
                   match digit c' with
                   | Some _ => digits acc false r
                   | None => None
                   end
               end
          else None
      end
  end.

Definition int_of_str (s : string) : exn + Z :=
  let body (t : string) := from_option inr (inl ValueError) (digits 0 false t) in
  match int_rstrip (int_lstrip s) with
  | String "-" t => match body t with inr z => inr (- z) | inl e => inl e end
  | String "+" t => body t
  | t => body t
  end.

(** [int(x)] for a float: truncation; no int for nan and the infinities. *)
Definition int_of_float (f : float) : exn + Z :=
  match Prim2SF f with
  | S754_zero _ => inr 0
  | S754_infinity _ => inl OverflowError
  | S754_nan => inl ValueError
  | S754_finite s m e =>
      let a := Z.shiftl (Z.pos m) e in
      inr (if s then - a else a)
  end.

(** [int(v)] *)
Definition int (v : pyval) : exn + Z :=
  match v with
  | PInt z => inr z
  | PBool b => inr (if b then 1 else 0)
  | PFloat f => int_of_float f
  | PStr s => int_of_str s
  | PNone | PList _ | PDict _ => inl TypeError
  end.

(** [round(x, 2)]: the double nearest to the decimal with two places that is
    nearest to [x], ties to even in both roundings. From 2^46 on a double is
    its own rounding; below, the hundredths fit 53 bits and the quotient by
    [100.0] is the nearest double. *)
Definition round_half_even (num den : Z) : Z :=
  let q := num / den in
  let r := 2 * (num mod den) in
  if r <? den then q
  else if den <? r then q + 1
  else if Z.even q then q else q + 1.

Definition round2 (x : float) : float :=
  match Prim2SF x with
  | S754_finite s m e =>
      if 46 <=? Z.log2 (Z.pos m) + e then x
      else
        let n :=
          if 0 <=? e then Z.pos m * 2 ^ e * 100
          else round_half_even (Z.pos m * 100) (2 ^ (- e)) in
        let q := PrimFloat.div (PrimFloat.of_uint63 (Uint63.of_Z n)) 100%float in
        if s then PrimFloat.opp q else q
  | _ => x
  end.

End Py.

Import Py.

(** ** Data *)

(** [class OrderFSM(StatesGroup)] *)
Inductive OrderFSM :=
| choosing_game
| choosing_package
| entering_nickname
| choosing_asset.

#[global] Instance OrderFSM_eq_dec : EqDecision OrderFSM.
Proof. solve_decision. Defined.

(** What [MemoryStorage] keeps for a chat and user: the current state ([None]
    when no state is set) and the data dict. *)
Record session := Session {
  state : option OrderFSM;
  data : gmap string string;
}.

(** The entry of a chat and user the storage has not seen, and what
    [state.finish()] leaves. *)
Definition no_session : session := Session None ∅.

(** A row of table [catalog]. *)
Record catalog_row := CatalogRow {
  cat_id : Z;
  cat_game : string;
  cat_package : string;
  cat_price_usdt : float;
}.

(** A row of table [orders]. *)
Record order_row := OrderRow {
  id : string;
  user_id : Z;
  username : option string;
  game : string;
  package : string;
  price_usdt : float;
  asset : string;
  nickname : string;
  created_at : Z;
  status : string;
  invoice_id : Z;
  pay_url : pyval;
}.

(** The texts the bot sends, by the line of the source that builds them. *)
Inductive text :=
| TGreeting                                   (* line 163 *)
| TChoosePackage (game : string)              (* line 171 *)
| TAskNickname                                (* line 178 *)
| TChooseAsset                                (* line 185 *)
| TPriceError                                 (* line 196 *)
| TInvoiceFailed                              (* line 203 *)
| TOrder (order_id game pkg nick : string) (price : float) (asset : string)
                                              (* line 210 *)
| TCheckError                                 (* line 219 *)
| TPaid (order_id : string)                   (* line 226 *)
| TNotYet                                     (* line 228 *)
| TInvalid.                                   (* line 230 *)

Inductive label :=
| LGame (game : string)
| LPackage (pkg : string) (price : float)
| LAsset (asset : string)
| LBack
| LPay
| LIPaid.

Inductive button :=
| CallbackButton (l : label) (callback_data : string)
| UrlButton (l : label) (url : pyval).

(** A call of the Telegram API. *)
Inductive action :=
| Answer (t : text) (reply_markup : list button)      (* m.answer *)
| EditText (t : text) (reply_markup : list button)    (* c.message.edit_text *)
| Alert (t : text).                                   (* c.answer(show_alert=True) *)

(** The FSM storage is keyed by chat and user. *)
Record world := World {
  storage : gmap (Z * Z) session;
  catalog : list catalog_row;
  orders : list order_row;
  sent : list action;
}.

(** What a handler reads from outside during one update. [http_post url body]
    is the decoded JSON body of the reply, or the text of the exception that
    [requests.post], [raise_for_status] or [r.json] raised. *)
Record env := Env {
  http_post : string → pyval → string + pyval;
  uuid4_hex : string;
  time_time : Z;
  command_start : string → bool;
}.

Record sender := Sender {
  chat_id : Z;
  from_id : Z;
  from_username : option string;
}.

Inductive update :=
| Message (who : sender) (text : option string)
| CallbackQuery (who : sender) (data : string).

Definition ASSETS : list string := ["USDT"; "TON"].

Definition CRYPTO_PAY_BASE : string := "https://pay.crypt.bot/api".

(** ** The handler monad *)

(** A handler changes the world and returns or raises. *)
Definition handler (A : Type) : Type := world → world * (exn + A).

#[global] Instance result_ret : MRet (sum exn) := λ A x, inr x.
#[global] Instance result_bind : MBind (sum exn) := λ A B f r,
  match r with
  | inr x => f x
  | inl e => inl e
  end.

#[global] Instance handler_ret : MRet handler := λ A x w, (w, inr x).
#[global] Instance handler_bind : MBind handler := λ A B f m w,
  match m w with
  | (w', inr x) => f x w'
  | (w', inl e) => (w', inl e)
  end.

(** An expression that may raise, evaluated inside a handler. *)
Definition lift {A} (r : exn + A) : handler A := λ w, (w, r).

Definition raise {A} (e : exn) : handler A := lift (inl e).

(** [l[1]] and [d[k]] *)
Definition index1 (l : list string) : exn + string :=
  from_option inr (inl IndexError) (l !! 1%nat).

Definition getitem (d : gmap string string) (k : string) : exn + string :=
  from_option inr (inl KeyError) (d !! k).

(** ** FSM storage ([FSMContext] over [MemoryStorage]) *)

Definition key (who : sender) : Z * Z := (chat_id who, from_id who).

Definition get_session (k : Z * Z) (w : world) : session :=
  default no_session (storage w !! k).

Definition put_session (k : Z * Z) (s : session) (w : world) : world :=
  World (<[k := s]> (storage w)) (catalog w) (orders w) (sent w).

(** [await state.get_data()] *)
Definition get_data (k : Z * Z) : handler (gmap string string) :=
  λ w, (w, inr (data (get_session k w))).

(** [await state.update_data(name=value)] *)
Definition update_data (k : Z * Z) (name value : string) : handler unit :=
  λ w, let s := get_session k w in
       (put_session k (Session (state s) (<[name := value]> (data s))) w, inr tt).

(** [await OrderFSM.x.set()] *)
Definition set_state (k : Z * Z) (x : OrderFSM) : handler unit :=
  λ w, let s := get_session k w in
       (put_session k (Session (Some x) (data s)) w, inr tt).

(** [await state.finish()]: the state and the data are reset. *)
Definition finish (k : Z * Z) : handler unit :=
  λ w, (put_session k no_session w, inr tt).

(** ** The two tables *)

(** [SELECT price_usdt FROM catalog WHERE game=? AND package=?], [fetchone()] *)
Definition select_price (game pkg : string) (cat : list catalog_row) : option float :=
  cat_price_usdt <$>
    List.find (λ r, String.eqb (cat_game r) game && String.eqb (cat_package r) pkg) cat.

(** [SELECT DISTINCT game FROM catalog ORDER BY game] *)
Fixpoint insert_game (g : string) (l : list string) : list string :=
  match l with
  | [] => [g]
  | h :: t =>
      match String.compare g h with
      | Lt => g :: l
      | Eq => l
      | Gt => h :: insert_game g t
      end
  end.

Definition select_games (cat : list catalog_row) : list string :=
  foldr insert_game [] (cat_game <$> cat).

(** [SELECT package, price_usdt FROM catalog WHERE game=? ORDER BY price_usdt] *)
Fixpoint insert_by_price (r : catalog_row) (l : list catalog_row) : list catalog_row :=
  match l with
  | [] => [r]
  | h :: t =>
      if PrimFloat.leb (cat_price_usdt r) (cat_price_usdt h) then r :: l
      else h :: insert_by_price r t
  end.

Definition select_packages (game : string) (cat : list catalog_row) : list catalog_row :=
  foldr insert_by_price [] (List.filter (λ r, String.eqb (cat_game r) game) cat).

(** What sqlite3 can bind: an int of 64 bits, no list and no dict. *)
Definition int64 (z : Z) : bool := (- 2 ^ 63 <=? z) && (z <? 2 ^ 63).

Definition bind (v : pyval) : exn + unit :=
  match v with
  | PInt z => if int64 z then inr tt else inl OverflowError
  | PList _ | PDict _ => inl InterfaceError
  | _ => inr tt
  end.

(** [INSERT INTO orders VALUES(...)], [commit()]: the parameters are bound in
    their order, then the row is added unless its [id], the primary key, is
    taken. *)
Definition insert_order (o : order_row) : handler unit :=
  λ w,
    if negb (int64 (user_id o) && int64 (created_at o) && int64 (invoice_id o))
    then (w, inl OverflowError)
    else match bind (pay_url o) with
         | inl ex => (w, inl ex)
         | inr _ =>
             if existsb (λ r, String.eqb (id r) (id o)) (orders w)
             then (w, inl IntegrityError)
             else (World (storage w) (catalog w) (orders w ++ [o]) (sent w), inr tt)
         end.

(** [UPDATE orders SET status='paid' WHERE id=?], [commit()] *)
Definition set_status_paid (o : order_row) : order_row :=
  OrderRow (id o) (user_id o) (username o) (game o) (package o) (price_usdt o)
    (asset o) (nickname o) (created_at o) "paid" (invoice_id o) (pay_url o).

Definition set_paid_where_id (order_id : string) (rows : list order_row) : list order_row :=
  (λ r, if String.eqb (id r) order_id then set_status_paid r else r) <$> rows.

Definition update_paid (order_id : string) : handler unit :=
  λ w,
    (World (storage w) (catalog w) (set_paid_where_id order_id (orders w)) (sent w),
     inr tt).

(** ** The Crypto Pay client *)

Definition crypto_pay (e : env) (method : string) (payload : pyval) : bool * pyval :=
  let url := CRYPTO_PAY_BASE +:+ "/" +:+ method in
  match http_post e url payload with
  | inr data =>
      match get data "ok" PNone with
      | inr ok => (truthy ok, data)
      | inl _ => (false, PDict [("error", PStr "object has no attribute 'get'")])
      end
  | inl msg => (false, PDict [("error", PStr msg)])
  end.

Definition create_invoice (e : env) (asset : string) (amount : float)
    (description payload : string) : exn + pyval :=
  let '(ok, data) :=
    crypto_pay e "createInvoice"
      (PDict [("asset", PStr asset);
              ("amount", PFloat (round2 amount));
              ("description", PStr description);
              ("payload", PStr payload)]) in
  if ok then get data "result" PNone else inr PNone.

Definition get_invoice (e : env) (invoice_id : Z) : exn + pyval :=
  let '(ok, data) :=
    crypto_pay e "getInvoices" (PDict [("invoice_ids", PList [PInt invoice_id])]) in
  if ok then
    result ← get data "result" (PDict []);
    arr ← get result "items" (PList []);
    if truthy arr then item0 arr else inr PNone
  else inr PNone.

(** ** Keyboards *)

Definition games_kb (cat : list catalog_row) : list button :=
  (λ g, CallbackButton (LGame g) ("game:" +:+ g)) <$> select_games cat.

Definition packages_kb (game : string) (cat : list catalog_row) : list button :=
  ((λ r, CallbackButton (LPackage (cat_package r) (cat_price_usdt r))
                        ("pkg:" +:+ cat_package r)) <$> select_packages game cat)
  ++ [CallbackButton LBack "back:games"].

Definition assets_kb : list button :=
  ((λ a, CallbackButton (LAsset a) ("asset:" +:+ a)) <$> ASSETS)
  ++ [CallbackButton LBack "back:packages"].

Definition pay_kb (pay_url : pyval) (order_id : string) (invoice_id : Z) : list button :=
  [UrlButton LPay pay_url;
   CallbackButton LIPaid ("check:" +:+ order_id +:+ ":" +:+ str_of_int invoice_id)].

(** ** Filters and outcomes *)

(** A message handler registered without [content_types] takes text
    messages only, those with a text that is not empty; [commands=["start"]]
    is aiogram's command filter on that text. *)
Definition start_filter (e : env) (mtext : option string) : bool :=
  match mtext with
  | Some t => negb (String.eqb t "") && command_start e t
  | None => false
  end.

(** The filter of [got_nickname]: [m.text and len(m.text) > 1]. *)
Definition nickname_filter (mtext : option string) : bool :=
  match mtext with
  | Some t => negb (String.eqb t "") && (1 <? Z.of_nat (String.length t))
  | None => false
  end.

(** How the processing of an update ends: no handler took it, or the one that
    did returned or raised. *)
Inductive outcome :=
| Unhandled
| Returned
| Raised (e : exn).

Definition run (h : handler unit) (w : world) : world * outcome :=
  match h w with
  | (w', inr _) => (w', Returned)
  | (w', inl e) => (w', Raised e)
  end.

(** The rows of table [catalog], as a query of this update sees them. *)
Definition read_catalog : handler (list catalog_row) :=
  λ w, (w, inr (catalog w)).

(** ** Handlers and dispatcher *)

Module Tg.

Section Telegram.

(** What Telegram does with the calls of one update: [tg a] tells whether it
    takes call [a]. It refuses a text that its HTML parser does not take (the
    bot sends with [parse_mode=HTML] and puts the game, the package, the
    nickname and the order identifier into its texts as they are), an edit
    of a message that is gone or that changes nothing, a call it cannot be
    reached for. *)
Variable tg : action → bool.

(** A call of the Telegram API: taken and recorded, or refused, and then the
    [await] raises. *)
Definition send (a : action) : handler unit :=
  λ w, if tg a
       then (World (storage w) (catalog w) (orders w) (sent w ++ [a]), inr tt)
       else (w, inl TelegramAPIError).

Definition cmd_start (m : sender) : handler unit :=
  finish (key m);;
  cat ← read_catalog;
  send (Answer TGreeting (games_kb cat)).

Definition pick_game (c : sender) (cdata : string) : handler unit :=
  game ← lift (index1 (split_colon_1 cdata));
  update_data (key c) "game" game;;
  set_state (key c) choosing_package;;
  cat ← read_catalog;
  send (EditText (TChoosePackage game) (packages_kb game cat)).

Definition pick_package (c : sender) (cdata : string) : handler unit :=
  pkg ← lift (index1 (split_colon_1 cdata));
  update_data (key c) "package" pkg;;
  set_state (key c) entering_nickname;;
  send (EditText TAskNickname []).

Definition got_nickname (m : sender) (mtext : option string) : handler unit :=
  nick ← lift (from_option (inr ∘ strip) (inl AttributeError) mtext);
  update_data (key m) "nickname" nick;;
  set_state (key m) choosing_asset;;
  send (Answer TChooseAsset assets_kb).

Definition choose_asset (e : env) (c : sender) (cdata : string) : handler unit :=
  asset ← lift (index1 (split_colon_1 cdata));
  d ← get_data (key c);
  game ← lift (getitem d "game");
  pkg ← lift (getitem d "package");
  nick ← lift (getitem d "nickname");
  cat ← read_catalog;
  match select_price game pkg cat with
  | None =>
      send (Alert TPriceError);;
      finish (key c)
  | Some price =>
      let order_id := substring 0 12 (uuid4_hex e) in
      let desc := game +:+ " - " +:+ pkg +:+ " (nick: " +:+ nick +:+ ")" in
      invoice ← lift (create_invoice e asset price desc order_id);
      if negb (truthy invoice) then
        send (Alert TInvoiceFailed)
      else
        pay_url ← lift (get invoice "pay_url" PNone);
        invoice_id ← lift (get invoice "invoice_id" PNone ≫= int);
        insert_order
          (OrderRow order_id (from_id c) (from_username c) game pkg price asset nick
             (time_time e) "pending" invoice_id pay_url);;
        send (EditText (TOrder order_id game pkg nick price asset)
                (pay_kb pay_url order_id invoice_id));;
        finish (key c)
  end.

Definition check_payment (e : env) (cdata : string) : handler unit :=
  match split_colon cdata with
  | [_; order_id; invoice_id] =>
      inv ← lift (int_of_str invoice_id ≫= get_invoice e);
      if negb (truthy inv) then
        send (Alert TCheckError)
      else
        status ← lift (get inv "status" PNone);
        if eq_str status "paid" then
          update_paid order_id;;
          send (EditText (TPaid order_id) [])
        else if eq_str status "active" then
          send (Alert TNotYet)
        else
          send (EditText TInvalid [])
  | _ => raise ValueError
  end.

(** The handlers are tried in the order of their registration; the first one
    whose filters pass takes the update. A handler registered without [state]
    takes an update only when no state is set; [state="*"] takes it in any
    state. The data of a callback query are a str, as those of every button
    of this bot are. *)
Definition dispatch (e : env) (u : update) (w : world) : world * outcome :=
  match u with
  | Message m mtext =>
      let st := state (get_session (key m) w) in
      if start_filter e mtext && bool_decide (st = None) then
        run (cmd_start m) w
      else if nickname_filter mtext && bool_decide (st = Some entering_nickname) then
        run (got_nickname m mtext) w
      else (w, Unhandled)
  | CallbackQuery c cdata =>
      let st := state (get_session (key c) w) in
      if startswith cdata "game:" then
        run (pick_game c cdata) w
      else if startswith cdata "pkg:" && bool_decide (st = Some choosing_package) then
        run (pick_package c cdata) w
      else if startswith cdata "asset:" && bool_decide (st = Some choosing_asset) then
        run (choose_asset e c cdata) w
      else if startswith cdata "check:" && bool_decide (st = None) then
        run (check_payment e cdata) w
      else (w, Unhandled)
  end.

End Telegram.

End Tg.

(** ** With a Telegram that takes every call *)

Definition accepts : action → bool := λ _, true.

Definition cmd_start (m : sender) : handler unit := Tg.cmd_start accepts m.

Definition pick_game (c : sender) (cdata : string) : handler unit :=
  Tg.pick_game accepts c cdata.

Definition pick_package (c : sender) (cdata : string) : handler unit :=
  Tg.pick_package accepts c cdata.

Definition got_nickname (m : sender) (mtext : option string) : handler unit :=
  Tg.got_nickname accepts m mtext.

Definition choose_asset (e : env) (c : sender) (cdata : string) : handler unit :=
  Tg.choose_asset accepts e c cdata.

Definition check_payment (e : env) (cdata : string) : handler unit :=
  Tg.check_payment accepts e cdata.

Definition dispatch (e : env) (u : update) (w : world) : world * outcome :=
  Tg.dispatch accepts e u w.

(** ** Runs *)

(** What happens to the world: the bot processes an update, or somebody edits
    table [catalog] (the bot itself only fills it when it is empty at start). *)
Inductive event :=
| Update (e : env) (u : update)
| CatalogEdit (cat : list catalog_row).

Definition step (w : world) (ev : event) : world :=
  match ev with
  | Update e u => (dispatch e u w).1
  | CatalogEdit cat => World (storage w) cat (orders w) (sent w)
  end.

Definition run_events (evs : list event) (w : world) : world :=
  foldl step w evs.

(** [init_db()] and [ensure_sample_catalog()] on a fresh database file. *)
Definition sample : list catalog_row :=
  [CatalogRow 1 "Genshin Impact" "60 Genesis Crystals" 0x1.199999999999ap+0%float;
   CatalogRow 2 "Genshin Impact" "330 Genesis Crystals" 5.5%float;
   CatalogRow 3 "World of Warcraft" "Gold 100k (EU)" 7%float].

Definition initial : world := World ∅ sample [] [].

(** ** Observations used in the statements *)

(** [SELECT status FROM orders WHERE id=?]: the status of an order, as a
    reader of the table finds it. *)
Definition order_status (order_id : string) (w : world) : option string :=
  status <$> List.find (λ r, String.eqb (id r) order_id) (orders w).

(** The status of the record the gateway returns for an invoice, as
    [check_payment] reads it: [get_invoice] gives a record and the record has
    a [get]. *)
Definition reported_status (e : env) (invoice_id : Z) : option pyval :=
  match get_invoice e invoice_id with
  | inr inv =>
      if truthy inv then
        match get inv "status" PNone with
        | inr s => Some s
        | inl _ => None
        end
      else None
  | inl _ => None
  end.

(** The order and the invoice that the data of a check callback name, as
    [check_payment] reads them. *)
Definition check_target (cdata : string) : option (string * Z) :=
  match split_colon cdata with
  | [_; order_id; invoice_id] =>
      match int_of_str invoice_id with
      | inr n => Some (order_id, n)
      | inl _ => None
      end
  | _ => None
  end.




(** The session of a buyer who has chosen game, package and nickname and is
    asked for the asset. *)
Definition ready (k : Z * Z) (g p n : string) (w : world) : Prop :=
  state (get_session k w) = Some choosing_asset ∧
  data (get_session k w) !! "game" = Some g ∧
  data (get_session k w) !! "package" = Some p ∧
  data (get_session k w) !! "nickname" = Some n.

(** The arguments [choose_asset] passes to [create_invoice]. *)
Definition order_id_of (e : env) : string := substring 0 12 (uuid4_hex e).

Definition description (g p n : string) : string :=
  g +:+ " - " +:+ p +:+ " (nick: " +:+ n +:+ ")".

(** What the data hold in each state. *)
Definition session_ok (s : session) : Prop :=
  match state s with
  | Some choosing_package => is_Some (data s !! "game")
  | Some entering_nickname =>
      is_Some (data s !! "game") ∧ is_Some (data s !! "package")
  | Some choosing_asset =>
      is_Some (data s !! "game") ∧ is_Some (data s !! "package") ∧
      is_Some (data s !! "nickname")
  | _ => True
  end.

Definition sessions_ok (w : world) : Prop := ∀ k, session_ok (get_session k w).

(** The value of a list of decimal digits read after [acc]. *)
Fixpoint decimal_value (acc : Z) (d : Decimal.uint) : Z :=
  match d with
  | Decimal.Nil => acc
  | Decimal.D0 l => decimal_value (10 * acc + 0) l
  | Decimal.D1 l => decimal_value (10 * acc + 1) l
  | Decimal.D2 l => decimal_value (10 * acc + 2) l
  | Decimal.D3 l => decimal_value (10 * acc + 3) l
  | Decimal.D4 l => decimal_value (10 * acc + 4) l
  | Decimal.D5 l => decimal_value (10 * acc + 5) l
  | Decimal.D6 l => decimal_value (10 * acc + 6) l
  | Decimal.D7 l => decimal_value (10 * acc + 7) l
  | Decimal.D8 l => decimal_value (10 * acc + 8) l
  | Decimal.D9 l => decimal_value (10 * acc + 9) l
  end.

(** The bodies [create_invoice] and [get_invoice] send, and the URLs they
    send them to. *)
Definition invoice_request (asset : string) (amount : float)
    (description payload : string) : pyval :=
  PDict [("asset", PStr asset);
         ("amount", PFloat (round2 amount));
         ("description", PStr description);
         ("payload", PStr payload)].

Definition status_request (invoice_id : Z) : pyval :=
  PDict [("invoice_ids", PList [PInt invoice_id])].

Definition create_url : string := CRYPTO_PAY_BASE +:+ "/" +:+ "createInvoice".

Definition status_url : string := CRYPTO_PAY_BASE +:+ "/" +:+ "getInvoices".

(** ** Start of the process *)

(** [ensure_sample_catalog()]: when table [catalog] has no row, the three
    sample rows are inserted; [seq] is the last [id] the table has used
    (AUTOINCREMENT goes on from it). *)
Definition sample_rows (seq : Z) : list catalog_row :=
  [CatalogRow (seq + 1) "Genshin Impact" "60 Genesis Crystals" 0x1.199999999999ap+0%float;
   CatalogRow (seq + 2) "Genshin Impact" "330 Genesis Crystals" 5.5%float;
   CatalogRow (seq + 3) "World of Warcraft" "Gold 100k (EU)" 7%float].

Definition ensure_sample_catalog (seq : Z) (cat : list catalog_row) : list catalog_row :=
  if Z.of_nat (length cat) =? 0 then cat ++ sample_rows seq else cat.

(** The chat and user an update comes from. *)
Definition who_sent (u : update) : sender :=
  match u with
  | Message m _ => m
  | CallbackQuery c _ => c
  end.

(** What the UPDATE of [check_payment] can make of a row: the row itself or
    the row with status [paid]. *)
Definition kept (r r' : order_row) : Prop := r' = r ∨ r' = set_status_paid r.

(** ** Fixtures: a buyer, gateway replies, the flow of the sample purchase *)

Definition buyer : sender := Sender 7 7 (Some "alice").

Definition reply_created : pyval :=
  PDict [("ok", PBool true);
         ("result", PDict [("invoice_id", PInt 42);
                           ("pay_url", PStr "https://pay.example/42")])].

Definition reply_status (n : Z) (s : string) : pyval :=
  PDict [("ok", PBool true);
         ("result", PDict [("items", PList [PDict [("invoice_id", PInt n);
                                                   ("status", PStr s)]])])].

Definition is_slash_start (t : string) : bool := String.eqb t "/start".

(** A gateway that creates invoice 42 and reports [paid_id] as paid, any other
    invoice with status [other]. *)
Definition gateway (paid_id : Z) (other : string) : env :=
  Env (λ url body,
         if String.eqb url "https://pay.crypt.bot/api/createInvoice" then inr reply_created
         else match body with
              | PDict ((_, PList (PInt n :: nil)) :: nil) =>
                  inr (reply_status n (if n =? paid_id then "paid" else other))
              | _ => inl "400 Client Error"
              end)
      "0123456789abcdef0123456789abcdef" 1700000000 is_slash_start.

(** A gateway that cannot be reached. *)
Definition gateway_down : env :=
  Env (λ _ _, inl "Connection refused")
      "0123456789abcdef0123456789abcdef" 1700000000 is_slash_start.

Definition purchase : list event :=
  [Update (gateway 0 "active") (Message buyer (Some "/start"));
   Update (gateway 0 "active") (CallbackQuery buyer "game:Genshin Impact");
   Update (gateway 0 "active") (CallbackQuery buyer "pkg:60 Genesis Crystals");
   Update (gateway 0 "active") (Message buyer (Some "Player123"))].

Definition purchased : world :=
  run_events (purchase ++ [Update (gateway 0 "active") (CallbackQuery buyer "asset:USDT")])
    initial.

(** The catalog after the price of the first package was raised and the last
    package removed. *)
Definition repriced : list catalog_row :=
  [CatalogRow 1 "Genshin Impact" "60 Genesis Crystals" 2.5%float;
   CatalogRow 2 "Genshin Impact" "330 Genesis Crystals" 5.5%float].

(** The purchase, reconciled once the gateway reports invoice 42 as paid. *)
Definition reconciled : list event :=
  purchase ++ [Update (gateway 0 "active") (CallbackQuery buyer "asset:USDT");
               Update (gateway 42 "active") (CallbackQuery buyer "check:0123456789ab:42")].


(** The row of the purchase once paid, with [n] as its invoice. *)
Definition paid_order (n : Z) : order_row :=
  OrderRow "0123456789ab" 7 (Some "alice") "Genshin Impact" "60 Genesis Crystals"
    0x1.199999999999ap+0%float "USDT" "Player123" 1700000000 "paid" n
    (PStr "https://pay.example/42").

(** A gateway whose replies have a true [ok] and [null] as [result]. *)
Definition gateway_null : env :=
  Env (λ _ _, inr (PDict [("ok", PBool true); ("result", PNone)]))
      "0123456789abcdef0123456789abcdef" 1700000000 is_slash_start.

(** A gateway that creates an invoice without [invoice_id]. *)
Definition gateway_no_id : env :=
  Env (λ _ _, inr (PDict [("ok", PBool true);
                          ("result", PDict [("pay_url", PStr "https://pay.example/42")])]))
      "0123456789abcdef0123456789abcdef" 1700000000 is_slash_start.

(** * Properties *)

(** ** The builtins on sample values *)

Example round2_samples :
  round2 0x1.5666666666666p+1%float = 0x1.55c28f5c28f5cp+1%float ∧   (* 2.675 -> 2.67 *)
  round2 0x1p-3%float = 0x1.eb851eb851eb8p-4%float ∧                 (* 0.125 -> 0.12 *)
  round2 0x1.0147ae147ae14p+0%float = 1%float ∧                      (* 1.005 -> 1.0 *)
  round2 0x1.e240c9fbe76c9p+16%float = 0x1.e240ca3d70a3dp+16%float ∧ (* 123456.789 -> 123456.79 *)
  round2 0x1.199999999999ap+0%float = 0x1.199999999999ap+0%float.    (* 1.1 -> 1.1 *)
Proof. repeat split; reflexivity. Qed.

Example int_of_str_samples :
  int_of_str " -1_000 " = inr (-1000) ∧
  int_of_str "+007" = inr 7 ∧
  int_of_str "1__0" = inl ValueError ∧
  int_of_str "_1" = inl ValueError ∧
  int_of_str "1_" = inl ValueError ∧
  int_of_str "- 1" = inl ValueError ∧
  int_of_str "" = inl ValueError ∧
  int_of_str (String "160" "42") = inr 42 ∧
  int_of_str (String "028" "42") = inl ValueError ∧
  int_of_str ("42" +:+ String "031" "") = inl ValueError.
Proof. repeat split; reflexivity. Qed.

Example split_samples :
  split_colon "check:abc:12" = ["check"; "abc"; "12"] ∧
  split_colon "" = [""] ∧
  split_colon ":a:" = [""; "a"; ""] ∧
  split_colon_1 "game:a:b" = ["game"; "a:b"] ∧
  split_colon_1 "x" = ["x"].
Proof. repeat split; reflexivity. Qed.

Example strip_samples :
  strip "  a b  " = "a b" ∧ strip "   " = "" ∧ rstrip "a  b " = "a  b".
Proof. repeat split; reflexivity. Qed.

(** ** The sample purchase *)

(** The buyer chooses Genshin Impact, 60 Genesis Crystals, sends Player123
    and chooses USDT; the gateway creates invoice 42: one pending order at
    1.1 with invoice 42, and the session is reset. *)
Example sample_purchase :
  orders purchased =
    [OrderRow "0123456789ab" 7 (Some "alice") "Genshin Impact" "60 Genesis Crystals"
       0x1.199999999999ap+0%float "USDT" "Player123" 1700000000 "pending" 42
       (PStr "https://pay.example/42")] ∧
  get_session (key buyer) purchased = no_session.
Proof. split; reflexivity. Qed.

(** The gateway reports the invoice as active: the buyer is told that the
    payment has not arrived and the order stays pending. *)
Example sample_check_active :
  dispatch (gateway 0 "active") (CallbackQuery buyer "check:0123456789ab:42") purchased =
    (World (storage purchased) (catalog purchased) (orders purchased)
       (sent purchased ++ [Alert TNotYet]),
     Returned).
Proof. reflexivity. Qed.

(** The gateway cannot be reached: the buyer is told that the check failed
    and the order stays pending. *)
Example sample_check_unreachable :
  dispatch gateway_down (CallbackQuery buyer "check:0123456789ab:42") purchased =
    (World (storage purchased) (catalog purchased) (orders purchased)
       (sent purchased ++ [Alert TCheckError]),
     Returned).
Proof. reflexivity. Qed.

(** ** Sessions *)

Lemma get_session_insert (k : Z * Z) (s : session) (st : gmap (Z * Z) session)
    (cat : list catalog_row) (os : list order_row) (out : list action) :
  get_session k (World (<[k := s]> st) cat os out) = s.
Proof. unfold get_session; simpl. by rewrite lookup_insert_eq. Qed.

Lemma get_session_insert_ne (k k' : Z * Z) (s : session) (w : world)
    (cat : list catalog_row) (os : list order_row) (out : list action) :
  k ≠ k' →
  get_session k' (World (<[k := s]> (storage w)) cat os out) = get_session k' w.
Proof. intros Hk. unfold get_session; simpl. by rewrite lookup_insert_ne. Qed.

Lemma get_session_same_storage (k : Z * Z) (w : world)
    (cat : list catalog_row) (os : list order_row) (out : list action) :
  get_session k (World (storage w) cat os out) = get_session k w.
Proof. reflexivity. Qed.

(** Unfolding of the dispatcher down to the handlers. *)
Ltac unfold_dispatch :=
  unfold dispatch, Tg.dispatch;
  change (Tg.cmd_start accepts ?m) with (cmd_start m);
  change (Tg.pick_game accepts ?c ?d) with (pick_game c d);
  change (Tg.pick_package accepts ?c ?d) with (pick_package c d);
  change (Tg.got_nickname accepts ?m ?t) with (got_nickname m t);
  change (Tg.choose_asset accepts ?e ?c ?d) with (choose_asset e c d);
  change (Tg.check_payment accepts ?e ?d) with (check_payment e d).

(** Unfolding of the handler monad. *)
Ltac unfold_handler :=
  unfold run, mbind, mret, handler_bind, handler_ret, result_bind, result_ret,
    lift, raise, get_data, update_data, set_state, finish, Tg.send, accepts,
    read_catalog,
    update_paid, index1, getitem in *;
  simpl in *.

(** ** Entering the nickname *)

Lemma nickname_filter_short (mtext : option string) :
  (∀ t, mtext = Some t → (String.length t ≤ 1)%nat) → nickname_filter mtext = false.
Proof.
  intros Hlen. destruct mtext as [t|]; [|done].
  specialize (Hlen t eq_refl). unfold nickname_filter.
  apply andb_false_iff; right. apply Z.ltb_ge. lia.
Qed.

(** C9. In state [entering_nickname] a message whose text has at most one
    character (the empty text and a message without text included) is taken
    by no handler: the state, the data and everything else stay as they were. *)
Theorem short_nickname_never_advances (e : env) (m : sender) (mtext : option string)
    (w : world) :
  state (get_session (key m) w) = Some entering_nickname →
  (∀ t, mtext = Some t → (String.length t ≤ 1)%nat) →
  dispatch e (Message m mtext) w = (w, Unhandled).
Proof.
  intros Hst Hlen. unfold_dispatch. rewrite Hst.
  rewrite (nickname_filter_short _ Hlen).
  rewrite bool_decide_eq_false_2 by done.
  by rewrite andb_false_r.
Qed.

Lemma short_nickname_never_advances_witness :
  let w := run_events [Update gateway_down (CallbackQuery buyer "game:Genshin Impact");
                       Update gateway_down (CallbackQuery buyer "pkg:60 Genesis Crystals")]
             initial in
  state (get_session (key buyer) w) = Some entering_nickname ∧
  dispatch gateway_down (Message buyer (Some "x")) w = (w, Unhandled).
Proof.
  split; [reflexivity|].
  apply (short_nickname_never_advances gateway_down buyer (Some "x")).
  - reflexivity.
  - intros t [= <-]. simpl. lia.
Defined.

(** Any number of such messages in a row leaves the world as it is. *)
Lemma short_nicknames_never_advance (e : env) (m : sender) (ts : list string)
    (w : world) :
  state (get_session (key m) w) = Some entering_nickname →
  Forall (λ t, (String.length t ≤ 1)%nat) ts →
  run_events ((λ t, Update e (Message m (Some t))) <$> ts) w = w.
Proof.
  intros Hst Hts. induction Hts as [|t ts Ht _ IH]; [done|].
  change (run_events ((λ t, Update e (Message m (Some t))) <$> ts)
            (dispatch e (Message m (Some t)) w).1 = w).
  assert (Hshort : nickname_filter (Some t) = false)
    by (apply nickname_filter_short; by intros t' [= <-]).
  unfold_dispatch. rewrite Hst, Hshort.
  rewrite bool_decide_eq_false_2 by done. by rewrite andb_false_r.
Qed.

Lemma nickname_filter_long (t : string) :
  (1 < String.length t)%nat → nickname_filter (Some t) = true.
Proof.
  intros Hlen. unfold nickname_filter.
  destruct t as [|c t']; [simpl in Hlen; lia|].
  simpl negb. apply Z.ltb_lt. lia.
Qed.

(** What [got_nickname] does to the session, whatever the text. *)
Lemma got_nickname_spec (m : sender) (t : string) (w : world) :
  ∃ w', got_nickname m (Some t) w = (w', inr tt) ∧
        get_session (key m) w' =
          Session (Some choosing_asset)
                  (<["nickname" := strip t]> (data (get_session (key m) w))) ∧
        orders w' = orders w ∧
        catalog w' = catalog w ∧
        sent w' = sent w ++ [Answer TChooseAsset assets_kb].
Proof.
  unfold got_nickname, Tg.got_nickname. unfold_handler.
  eexists; split; [reflexivity|].
  unfold put_session. rewrite !get_session_insert. repeat split; reflexivity.
Qed.

(** ** Callback data *)

Lemma asset_data_routing (a : string) :
  startswith ("asset:" +:+ a) "game:" = false ∧
  startswith ("asset:" +:+ a) "pkg:" = false ∧
  startswith ("asset:" +:+ a) "asset:" = true ∧
  startswith ("asset:" +:+ a) "check:" = false.
Proof. repeat split; try reflexivity. by destruct a. Qed.

Lemma asset_data_split (a : string) :
  index1 (split_colon_1 ("asset:" +:+ a)) = inr a.
Proof. reflexivity. Qed.

(** An update with callback data [asset:...] reaches [choose_asset] exactly
    in state [choosing_asset]. *)
Lemma dispatch_asset (e : env) (c : sender) (a : string) (w : world) :
  dispatch e (CallbackQuery c ("asset:" +:+ a)) w =
    if bool_decide (state (get_session (key c) w) = Some choosing_asset)
    then run (choose_asset e c ("asset:" +:+ a)) w
    else (w, Unhandled).
Proof.
  unfold_dispatch.
  destruct (asset_data_routing a) as (-> & -> & -> & ->).
  rewrite andb_false_l, andb_true_l, andb_false_l. reflexivity.
Qed.

(** ** The data of the pay button *)

Lemma decimal_value_acc (d : Decimal.uint) (p : positive) :
  decimal_value (Z.pos p) d = Z.pos (Pos.of_uint_acc d p).
Proof.
  revert p. induction d; intros p; simpl; [done|..];
    match goal with
    | |- decimal_value ?a _ = _ =>
        let q := fresh in
        evar (q : positive); replace a with (Z.pos q); subst q; [apply IHd|lia]
    end.
Qed.

Lemma decimal_value_0 (d : Decimal.uint) :
  decimal_value 0 d = Z.of_N (Pos.of_uint d).
Proof. induction d; simpl; [done|done|apply decimal_value_acc..]. Qed.

Lemma digits_uint (d : Decimal.uint) (acc : Z) :
  digits acc true (NilEmpty.string_of_uint d) = Some (decimal_value acc d).
Proof. revert acc. induction d; intros acc; simpl; [done|apply IHd..]. Qed.

Lemma digits_uint_first (d : Decimal.uint) (acc : Z) :
  d ≠ Decimal.Nil →
  digits acc false (NilEmpty.string_of_uint d) = Some (decimal_value acc d).
Proof. destruct d; simpl; [done|intros _; apply digits_uint..]. Qed.

Lemma int_rstrip_uint (d : Decimal.uint) :
  int_rstrip (NilEmpty.string_of_uint d) = NilEmpty.string_of_uint d.
Proof.
  induction d; simpl; [done|..]; rewrite IHd; by destruct (NilEmpty.string_of_uint d).
Qed.

Lemma int_strip_uint (d : Decimal.uint) :
  int_rstrip (int_lstrip (NilEmpty.string_of_uint d)) = NilEmpty.string_of_uint d.
Proof.
  replace (int_lstrip (NilEmpty.string_of_uint d)) with (NilEmpty.string_of_uint d)
    by (by destruct d).
  apply int_rstrip_uint.
Qed.

Lemma cut_colon_uint (d : Decimal.uint) :
  cut_colon (NilEmpty.string_of_uint d) = None.
Proof. induction d; simpl; [done|by rewrite IHd..]. Qed.

Lemma int_of_str_uint (d : Decimal.uint) :
  d ≠ Decimal.Nil →
  int_of_str (NilEmpty.string_of_uint d) = inr (decimal_value 0 d).
Proof.
  intros Hnil. unfold int_of_str. rewrite int_strip_uint.
  destruct d; [done|..]; simpl; by rewrite digits_uint.
Qed.

Lemma int_of_str_minus_uint (d : Decimal.uint) :
  d ≠ Decimal.Nil →
  int_of_str (String "-" (NilEmpty.string_of_uint d)) = inr (- decimal_value 0 d).
Proof.
  intros Hnil. unfold int_of_str. simpl int_lstrip.
  assert (int_rstrip (String "-" (NilEmpty.string_of_uint d))
          = String "-" (NilEmpty.string_of_uint d)) as ->.
  { simpl. rewrite int_rstrip_uint. by destruct d. }
  by rewrite digits_uint_first.
Qed.

Lemma string_of_uint_nonnil (d : Decimal.uint) :
  d ≠ Decimal.Nil → NilZero.string_of_uint d = NilEmpty.string_of_uint d.
Proof. by destruct d. Qed.

(** [int(str(z)) == z] *)
Lemma int_of_str_str_of_int (z : Z) : int_of_str (str_of_int z) = inr z.
Proof.
  destruct z as [|p|p]; [reflexivity|..]; unfold str_of_int; simpl;
    pose proof (Unsigned.to_uint_nonnil p) as Hnil;
    pose proof (Unsigned.of_to p) as Hval;
    rewrite string_of_uint_nonnil by done.
  - by rewrite int_of_str_uint, decimal_value_0, Hval.
  - by rewrite int_of_str_minus_uint, decimal_value_0, Hval.
Qed.

Lemma cut_colon_str_of_int (z : Z) : cut_colon (str_of_int z) = None.
Proof.
  destruct z as [|p|p]; [reflexivity|..]; unfold str_of_int; simpl;
    rewrite string_of_uint_nonnil by apply Unsigned.to_uint_nonnil;
    simpl; by rewrite cut_colon_uint.
Qed.

Lemma split_colon_no_colon (s : string) :
  cut_colon s = None → split_colon s = [s].
Proof.
  induction s as [|c s IH]; [done|]. simpl.
  destruct (Ascii.eqb c ":"); [done|].
  destruct (cut_colon s) as [[a b]|]; [done|]. intros _. by rewrite IH.
Qed.

Lemma split_colon_app (a b : string) :
  cut_colon a = None → split_colon (a +:+ String ":" b) = a :: split_colon b.
Proof.
  induction a as [|c a IH]; [done|]. simpl.
  destruct (Ascii.eqb c ":"); [done|].
  destruct (cut_colon a) as [[a1 a2]|]; [done|]. intros _. by rewrite IH.
Qed.

(** X17. The button [pay_kb] puts under an order names the order and its
    invoice: when the order identifier has no colon, [check_payment] reads
    back from the callback data of the button the identifier and the invoice
    number the button was built from. *)
Lemma pay_kb_check_target (pay : pyval) (oid : string) (n : Z) :
  cut_colon oid = None →
  ∃ cdata, CallbackButton LIPaid cdata ∈ pay_kb pay oid n ∧
           startswith cdata "check:" = true ∧
           check_target cdata = Some (oid, n).
Proof.
  intros Hoid. exists ("check:" +:+ oid +:+ ":" +:+ str_of_int n). split; [|split].
  - unfold pay_kb. apply list_elem_of_further, list_elem_of_here.
  - simpl. by destruct (oid +:+ _).
  - unfold check_target.
    change ("check:" +:+ oid +:+ ":" +:+ str_of_int n)
      with ("check" +:+ String ":" (oid +:+ String ":" (str_of_int n))).
    rewrite split_colon_app by done. rewrite split_colon_app by done.
    rewrite split_colon_no_colon by apply cut_colon_str_of_int.
    by rewrite int_of_str_str_of_int.
Qed.

(** ** The gateway client never raises *)

Lemma crypto_pay_ok_dict (e : env) (method : string) (payload data : pyval) :
  crypto_pay e method payload = (true, data) → ∃ d, data = PDict d.
Proof.
  unfold crypto_pay. destruct (http_post e _ payload) as [msg|body]; [discriminate|].
  destruct body; simpl; try discriminate. intros [= _ <-]. eauto.
Qed.

Lemma crypto_pay_transport_failure (e : env) (method : string) (payload : pyval)
    (msg : string) :
  http_post e (CRYPTO_PAY_BASE +:+ "/" +:+ method) payload = inl msg →
  (crypto_pay e method payload).1 = false.
Proof. unfold crypto_pay. by intros ->. Qed.

Lemma crypto_pay_not_ok (e : env) (method : string) (payload body : pyval) :
  http_post e (CRYPTO_PAY_BASE +:+ "/" +:+ method) payload = inr body →
  (∀ ok, get body "ok" PNone = inr ok → truthy ok = false) →
  (crypto_pay e method payload).1 = false.
Proof.
  unfold crypto_pay. intros -> Hok.
  destruct (get body "ok" PNone) as [ex|ok] eqn:Hget; [done|]. simpl. by apply Hok.
Qed.

Lemma create_invoice_returns (e : env) (a : string) (amount : float) (d pl : string) :
  ∃ v, create_invoice e a amount d pl = inr v.
Proof.
  unfold create_invoice. destruct (crypto_pay e _ _) as [[|] body] eqn:Hpay; [|eauto].
  apply crypto_pay_ok_dict in Hpay as [items ->]. simpl. eauto.
Qed.

Lemma create_invoice_failure (e : env) (a : string) (amount : float) (d pl : string) :
  (crypto_pay e "createInvoice"
     (PDict [("asset", PStr a); ("amount", PFloat (round2 amount));
             ("description", PStr d); ("payload", PStr pl)])).1 = false →
  create_invoice e a amount d pl = inr PNone.
Proof.
  unfold create_invoice. destruct (crypto_pay e _ _) as [ok body]. simpl. by intros ->.
Qed.

(** ** The commit, [choose_asset] *)

Ltac enter_choose_asset Hready :=
  let Hst := fresh "Hst" in
  let Hg := fresh "Hg" in
  let Hp := fresh "Hp" in
  let Hn := fresh "Hn" in
  destruct Hready as (Hst & Hg & Hp & Hn);
  rewrite dispatch_asset, Hst, bool_decide_eq_true_2 by done;
  unfold choose_asset, Tg.choose_asset; rewrite asset_data_split;
  unfold_handler; rewrite Hg, Hp, Hn; simpl.

(** [cmd_start] leaves the session of the sender as [finish] does. *)
Lemma cmd_start_session (m : sender) (w : world) :
  get_session (key m) (cmd_start m w).1 = no_session.
Proof.
  unfold cmd_start, Tg.cmd_start. unfold_handler. unfold put_session. by rewrite get_session_insert.
Qed.

Lemma dispatch_price_error (e : env) (c : sender) (a : string) (w : world)
    (g p n : string) :
  ready (key c) g p n w →
  select_price g p (catalog w) = None →
  dispatch e (CallbackQuery c ("asset:" +:+ a)) w =
    (put_session (key c) no_session
       (World (storage w) (catalog w) (orders w) (sent w ++ [Alert TPriceError])),
     Returned).
Proof.
  intros Hready Hprice. enter_choose_asset Hready. by rewrite Hprice.
Qed.

(** C7. When the recorded game and package no longer resolve in the catalog
    at commit time, the commit returns after reporting the price error: no
    order row is added and the session is reset to what [/start] leaves, no
    state and no data. *)
Theorem stale_catalog_aborts_commit (e : env) (c : sender) (a : string) (w : world)
    (g p n : string) :
  ready (key c) g p n w →
  select_price g p (catalog w) = None →
  ∃ w', dispatch e (CallbackQuery c ("asset:" +:+ a)) w = (w', Returned) ∧
        orders w' = orders w ∧
        sent w' = sent w ++ [Alert TPriceError] ∧
        get_session (key c) w' = no_session ∧
        get_session (key c) w' = get_session (key c) (cmd_start c w).1.
Proof.
  intros Hready Hprice. eexists; split; [by eapply dispatch_price_error|].
  rewrite cmd_start_session. unfold put_session. rewrite get_session_insert.
  repeat split; reflexivity.
Qed.

Lemma stale_catalog_aborts_commit_witness :
  let w := run_events (purchase ++ [CatalogEdit []]) initial in
  ∃ w', dispatch gateway_down (CallbackQuery buyer "asset:USDT") w = (w', Returned) ∧
        orders w' = orders w ∧
        sent w' = sent w ++ [Alert TPriceError] ∧
        get_session (key buyer) w' = no_session ∧
        get_session (key buyer) w' = get_session (key buyer) (cmd_start buyer w).1.
Proof.
  apply (stale_catalog_aborts_commit gateway_down buyer "USDT" _
           "Genshin Impact" "60 Genesis Crystals" "Player123").
  - vm_compute. repeat split; reflexivity.
  - reflexivity.
Defined.

(** C6. When [create_invoice] gives no result (what it returns is [None] or
    another false value), the commit returns without raising after reporting
    the gateway error: no order row is added, and the storage is untouched, so
    the buyer is still in [choosing_asset] with the same data and may retry. *)
Theorem gateway_failure_keeps_session (e : env) (c : sender) (a : string) (w : world)
    (g p n : string) (price : float) (invoice : pyval) :
  ready (key c) g p n w →
  select_price g p (catalog w) = Some price →
  create_invoice e a price (description g p n) (order_id_of e) = inr invoice →
  truthy invoice = false →
  ∃ w', dispatch e (CallbackQuery c ("asset:" +:+ a)) w = (w', Returned) ∧
        orders w' = orders w ∧
        sent w' = sent w ++ [Alert TInvoiceFailed] ∧
        storage w' = storage w ∧
        ready (key c) g p n w'.
Proof.
  intros Hready Hprice Hinv Hfalse. pose proof Hready as Hready'.
  enter_choose_asset Hready. rewrite Hprice.
  fold (description g p n) (order_id_of e). rewrite Hinv, Hfalse. simpl.
  eexists; split; [reflexivity|]. repeat split; try reflexivity; apply Hready'.
Qed.

Lemma gateway_failure_keeps_session_witness :
  let w := run_events purchase initial in
  ∃ w', dispatch gateway_down (CallbackQuery buyer "asset:USDT") w = (w', Returned) ∧
        orders w' = orders w ∧
        sent w' = sent w ++ [Alert TInvoiceFailed] ∧
        storage w' = storage w ∧
        ready (key buyer) "Genshin Impact" "60 Genesis Crystals" "Player123" w'.
Proof.
  apply (gateway_failure_keeps_session gateway_down buyer "USDT" _
           "Genshin Impact" "60 Genesis Crystals" "Player123"
           0x1.199999999999ap+0%float PNone).
  - vm_compute. repeat split; reflexivity.
  - reflexivity.
  - apply create_invoice_failure. reflexivity.
  - reflexivity.
Defined.

(** What one run of [choose_asset] can do to table [orders], whatever the
    session holds: nothing, or one new pending row, and then the handler has
    returned and the session of the sender is reset. *)
Lemma choose_asset_orders (e : env) (c : sender) (cdata : string) (w : world) :
  orders (choose_asset e c cdata w).1 = orders w ∨
  ∃ o, orders (choose_asset e c cdata w).1 = orders w ++ [o] ∧
       status o = "pending" ∧
       existsb (λ r, String.eqb (id r) (id o)) (orders w) = false ∧
       (choose_asset e c cdata w).2 = inr tt ∧
       get_session (key c) (choose_asset e c cdata w).1 = no_session.
Proof.
  unfold choose_asset, Tg.choose_asset, insert_order. unfold_handler.
  repeat (case_match; simpl in *; simplify_eq; try (left; reflexivity)).
  all: right; eexists; split; [reflexivity|]; repeat split; try done.
  unfold put_session; simpl. by rewrite get_session_insert.
Qed.



(** Without state [choosing_asset] nothing takes the asset callback. *)
Lemma dispatch_asset_unhandled (e : env) (c : sender) (a : string) (w : world) :
  state (get_session (key c) w) ≠ Some choosing_asset →
  dispatch e (CallbackQuery c ("asset:" +:+ a)) w = (w, Unhandled).
Proof. intros Hst. rewrite dispatch_asset. by rewrite bool_decide_eq_false_2. Qed.




(** The row a completed commit adds. *)
Lemma completed_commit_order (e : env) (c : sender) (a : string)
    (w : world) (g p n : string) (price : float) (w' : world) :
  ready (key c) g p n w →
  select_price g p (catalog w) = Some price →
  dispatch e (CallbackQuery c ("asset:" +:+ a)) w = (w', Returned) →
  state (get_session (key c) w') = None →
  ∃ iid pay,
    orders w' = orders w ++
      [OrderRow (order_id_of e) (from_id c) (from_username c) g p price a n
         (time_time e) "pending" iid pay].
Proof.
  intros Hready Hprice. pose proof Hready as (Hstate & _). revert w'.
  enter_choose_asset Hready. rewrite Hprice. unfold insert_order.
  intros w' Hrun Hdone.
  repeat (case_match; simpl in *; simplify_eq).
  - change (state (get_session (key c) w) = None) in Hdone. congruence.
  - eexists _, _. reflexivity.
Qed.

(** C3. When the recorded game and package resolve in the catalog at commit
    time and the commit completes (the handler returns and the session has
    left [choosing_asset]), exactly one row has been added to table [orders],
    and its price is the one the catalog holds at that moment; the row carries
    the recorded game, package and nickname, the chosen asset and status
    [pending]. The session holds no price: none is taken from selection time. *)
Theorem completed_commit_binds_catalog_price (e : env) (c : sender) (a : string)
    (w : world) (g p n : string) (price : float) :
  ready (key c) g p n w →
  select_price g p (catalog w) = Some price →
  ∀ w', dispatch e (CallbackQuery c ("asset:" +:+ a)) w = (w', Returned) →
        state (get_session (key c) w') = None →
        ∃ o, orders w' = orders w ++ [o] ∧
             price_usdt o = price ∧
             game o = g ∧ package o = p ∧ nickname o = n ∧ asset o = a ∧
             status o = "pending".
Proof.
  intros Hready Hprice w' Hrun Hdone.
  destruct (completed_commit_order e c a w g p n price w' Hready Hprice Hrun Hdone)
    as (iid & pay & ->).
  eexists; split; [reflexivity|]. repeat split; reflexivity.
Qed.

Lemma completed_commit_binds_catalog_price_witness :
  let w := run_events (purchase ++ [CatalogEdit repriced]) initial in
  let w' := (dispatch (gateway 0 "active") (CallbackQuery buyer "asset:USDT") w).1 in
  select_price "Genshin Impact" "60 Genesis Crystals" (catalog initial)
    = Some 0x1.199999999999ap+0%float ∧
  ∃ o, orders w' = orders w ++ [o] ∧
       price_usdt o = 2.5%float ∧
       game o = "Genshin Impact" ∧ package o = "60 Genesis Crystals" ∧
       nickname o = "Player123" ∧ asset o = "USDT" ∧
       status o = "pending".
Proof.
  split; [reflexivity|].
  apply (completed_commit_binds_catalog_price (gateway 0 "active") buyer "USDT"
           (run_events (purchase ++ [CatalogEdit repriced]) initial)
           "Genshin Impact" "60 Genesis Crystals" "Player123" 2.5%float).
  - vm_compute. repeat split; reflexivity.
  - reflexivity.
  - vm_compute. reflexivity.
  - vm_compute. reflexivity.
Defined.

(** ** The nickname is the stripped text *)

Lemma dispatch_nickname (e : env) (m : sender) (t : string) (w : world) :
  state (get_session (key m) w) = Some entering_nickname →
  (1 < String.length t)%nat →
  dispatch e (Message m (Some t)) w = run (got_nickname m (Some t)) w.
Proof.
  intros Hst Hlen. unfold_dispatch. rewrite Hst.
  rewrite (nickname_filter_long t Hlen).
  rewrite bool_decide_eq_false_2, bool_decide_eq_true_2 by done.
  by rewrite andb_false_r.
Qed.

(** C10. The nickname put into the session is the text of the message with
    the surrounding whitespace stripped, and a completed commit copies it
    into the order row. The filter measures the text before stripping: there
    are texts of more than one character that advance the session to
    [choosing_asset] with an empty nickname, and others with a nickname of
    one character. *)
Theorem nickname_is_stripped_text :
  (∀ (e : env) (m : sender) (t : string) (w : world),
     state (get_session (key m) w) = Some entering_nickname →
     (1 < String.length t)%nat →
     ∃ w', dispatch e (Message m (Some t)) w = (w', Returned) ∧
           state (get_session (key m) w') = Some choosing_asset ∧
           data (get_session (key m) w') !! "nickname" = Some (strip t) ∧
           ∀ (e2 : env) (a g p : string) (price : float) (w2 : world),
             data (get_session (key m) w') !! "game" = Some g →
             data (get_session (key m) w') !! "package" = Some p →
             select_price g p (catalog w') = Some price →
             dispatch e2 (CallbackQuery m ("asset:" +:+ a)) w' = (w2, Returned) →
             state (get_session (key m) w2) = None →
             ∃ o, orders w2 = orders w' ++ [o] ∧ nickname o = strip t) ∧
  (∃ t, (1 < String.length t)%nat ∧ strip t = "") ∧
  (∃ t, (1 < String.length t)%nat ∧ String.length (strip t) = 1%nat).
Proof.
  split; [|split].
  - intros e m t w Hst Hlen. rewrite (dispatch_nickname e m t w Hst Hlen).
    destruct (got_nickname_spec m t w) as (w' & Hrun & Hsess & _).
    exists w'. unfold run. rewrite Hrun.
    split; [reflexivity|]. rewrite Hsess. simpl.
    split; [reflexivity|]. split; [by rewrite lookup_insert_eq|].
    intros e2 a g p price w2 Hg Hp Hprice Hcommit Hdone.
    assert (Hready : ready (key m) g p (strip t) w').
    { unfold ready. rewrite Hsess. simpl. by rewrite lookup_insert_eq. }
    destruct (completed_commit_order e2 m a w' g p (strip t) price w2
                Hready Hprice Hcommit Hdone) as (iid & pay & ->).
    eexists; split; reflexivity.
  - exists "  ". split; [simpl; lia|reflexivity].
  - exists " a". split; [simpl; lia|reflexivity].
Qed.

Lemma nickname_is_stripped_text_witness :
  let w := run_events [Update gateway_down (CallbackQuery buyer "game:Genshin Impact");
                       Update gateway_down (CallbackQuery buyer "pkg:60 Genesis Crystals")]
             initial in
  ∃ w', dispatch gateway_down (Message buyer (Some "  ")) w = (w', Returned) ∧
        state (get_session (key buyer) w') = Some choosing_asset ∧
        data (get_session (key buyer) w') !! "nickname" = Some "".
Proof.
  destruct (proj1 nickname_is_stripped_text gateway_down buyer "  "
              (run_events
                 [Update gateway_down (CallbackQuery buyer "game:Genshin Impact");
                  Update gateway_down (CallbackQuery buyer "pkg:60 Genesis Crystals")]
                 initial))
    as (w' & Hrun & Hst & Hnick & _).
  - reflexivity.
  - simpl. lia.
  - exists w'. repeat split; assumption.
Defined.

(** ** Reconciliation, [check_payment] *)

Lemma eq_str_true (v : pyval) (s : string) : eq_str v s = true → v = PStr s.
Proof.
  destruct v; simpl; try discriminate. intros Heq. by apply String.eqb_eq in Heq as ->.
Qed.

(** What [check_payment] does once the callback data name an order and an
    invoice and the gateway returns a record with a status. *)
Lemma check_payment_reported (e : env) (cdata oid : string) (n : Z) (s : pyval)
    (w : world) :
  check_target cdata = Some (oid, n) →
  reported_status e n = Some s →
  check_payment e cdata w =
    if eq_str s "paid" then
      (World (storage w) (catalog w) (set_paid_where_id oid (orders w))
         (sent w ++ [EditText (TPaid oid) []]), inr tt)
    else if eq_str s "active" then
      (World (storage w) (catalog w) (orders w) (sent w ++ [Alert TNotYet]), inr tt)
    else
      (World (storage w) (catalog w) (orders w) (sent w ++ [EditText TInvalid []]), inr tt).
Proof.
  unfold check_target, reported_status, check_payment, Tg.check_payment. intros Htarget Hstatus.
  repeat (case_match; simplify_eq).
  all: unfold_handler; rewrite ?H; simpl.
  all: repeat (case_match; simplify_eq); try reflexivity.
  all: repeat match goal with
         | H : negb _ = true |- _ => apply negb_true_iff in H
         | H : negb _ = false |- _ => apply negb_false_iff in H
         end; congruence.
Qed.

(** The converse: table [orders] changes only in the branch of a paid status. *)
Lemma check_payment_orders (e : env) (cdata : string) (w : world) :
  orders (check_payment e cdata w).1 = orders w ∨
  ∃ oid n, check_target cdata = Some (oid, n) ∧
           reported_status e n = Some (PStr "paid") ∧
           orders (check_payment e cdata w).1 = set_paid_where_id oid (orders w).
Proof.
  unfold check_target, reported_status, check_payment, Tg.check_payment. unfold_handler.
  repeat (case_match; simpl in *; simplify_eq; try (left; reflexivity)).
  right. eexists _, _. split; [reflexivity|].
  match goal with H : negb _ = false |- _ => apply negb_false_iff in H; rename H into Ht end.
  match goal with H : get_invoice _ _ = _ |- _ => rewrite H end.
  match goal with H : get _ "status" _ = _ |- _ => rewrite Ht, H end.
  match goal with H : eq_str _ _ = true |- _ => apply eq_str_true in H as -> end.
  done.
Qed.

(** *** The table under [UPDATE ... SET status='paid' WHERE id=?] *)

Lemma set_status_paid_paid (r : order_row) :
  status r = "paid" → set_status_paid r = r.
Proof. destruct r; simpl. by intros ->. Qed.

(** The update is idempotent. *)
Lemma set_paid_where_id_idem (oid : string) (rows : list order_row) :
  set_paid_where_id oid (set_paid_where_id oid rows) = set_paid_where_id oid rows.
Proof.
  unfold set_paid_where_id. rewrite <- list_fmap_compose.
  apply list_fmap_ext. intros i r _. simpl.
  destruct (String.eqb (id r) oid) eqn:Hid; simpl; rewrite Hid; [|done].
  by apply set_status_paid_paid.
Qed.

Lemma find_set_paid_where_id (oid oid' : string) (rows : list order_row) :
  status <$> List.find (λ r, String.eqb (id r) oid') (set_paid_where_id oid rows) =
  (λ s, if String.eqb oid' oid then "paid" else s) <$>
    (status <$> List.find (λ r, String.eqb (id r) oid') rows).
Proof.
  induction rows as [|r rows IH]; [done|]. simpl.
  destruct (String.eqb (id r) oid) eqn:Hid; simpl.
  - apply String.eqb_eq in Hid. rewrite Hid.
    destruct (String.eqb oid oid') eqn:Hid'.
    + apply String.eqb_eq in Hid' as <-. simpl. by rewrite String.eqb_refl.
    + apply IH.
  - destruct (String.eqb (id r) oid') eqn:Hid'; [|apply IH]. simpl.
    apply String.eqb_eq in Hid' as <-.
    assert (String.eqb (id r) oid = false) as -> by done. done.
Qed.

Lemma order_status_set_paid (oid : string) (st : gmap (Z * Z) session)
    (cat : list catalog_row) (rows : list order_row) (out out' : list action) (s : string) :
  order_status oid (World st cat rows out) = Some s →
  order_status oid (World st cat (set_paid_where_id oid rows) out') = Some "paid".
Proof.
  unfold order_status. simpl. rewrite find_set_paid_where_id. intros ->. simpl.
  by rewrite String.eqb_refl.
Qed.


(** C8. With the gateway reporting the invoice as paid at both invocations,
    two reconciliations in a row of an order whose status is already [paid]
    both return after the same success message, the status is [paid] after
    each, and the second leaves table [orders] as the first left it. *)
Theorem reconciliation_of_paid_is_idempotent (e1 e2 : env) (cdata oid : string)
    (n : Z) (w : world) :
  check_target cdata = Some (oid, n) →
  reported_status e1 n = Some (PStr "paid") →
  reported_status e2 n = Some (PStr "paid") →
  order_status oid w = Some "paid" →
  ∃ w1 w2,
    run (check_payment e1 cdata) w = (w1, Returned) ∧
    run (check_payment e2 cdata) w1 = (w2, Returned) ∧
    order_status oid w1 = Some "paid" ∧
    order_status oid w2 = Some "paid" ∧
    sent w1 = sent w ++ [EditText (TPaid oid) []] ∧
    sent w2 = sent w1 ++ [EditText (TPaid oid) []] ∧
    orders w2 = orders w1.
Proof.
  intros Htarget Hpaid1 Hpaid2 Hstatus.
  unfold run.
  rewrite (check_payment_reported e1 cdata oid n _ w Htarget Hpaid1). simpl.
  eexists _, _. split; [reflexivity|].
  rewrite (check_payment_reported e2 cdata oid n _ _ Htarget Hpaid2). simpl.
  split; [reflexivity|].
  destruct w as [st cat rows out]. simpl in *.
  assert (Hafter : ∀ out', order_status oid
            (World st cat (set_paid_where_id oid rows) out') = Some "paid")
    by (intros out'; by eapply order_status_set_paid).
  rewrite set_paid_where_id_idem. repeat split; apply Hafter || reflexivity.
Qed.

Lemma reconciliation_of_paid_is_idempotent_witness :
  let e := gateway 42 "active" in
  let cdata := "check:0123456789ab:42" in
  let w := (dispatch e (CallbackQuery buyer cdata) purchased).1 in
  order_status "0123456789ab" purchased = Some "pending" ∧
  order_status "0123456789ab" w = Some "paid" ∧
  ∃ w1 w2,
    run (check_payment e cdata) w = (w1, Returned) ∧
    run (check_payment e cdata) w1 = (w2, Returned) ∧
    order_status "0123456789ab" w1 = Some "paid" ∧
    order_status "0123456789ab" w2 = Some "paid" ∧
    sent w1 = sent w ++ [EditText (TPaid "0123456789ab") []] ∧
    sent w2 = sent w1 ++ [EditText (TPaid "0123456789ab") []] ∧
    orders w2 = orders w1.
Proof.
  split; [reflexivity|]. split; [reflexivity|].
  apply (reconciliation_of_paid_is_idempotent (gateway 42 "active") (gateway 42 "active")
           "check:0123456789ab:42" "0123456789ab" 42); reflexivity.
Defined.

(** C1, as the code has it. When the gateway returns a record whose status
    is neither "paid" nor "active", the reconciliation returns after
    reporting that the invoice is invalid and writes nothing: table [orders]
    is left as it was, so no status becomes [paid], and none becomes
    [invalid] either. *)
Theorem other_status_reports_invalid (e : env) (cdata oid : string) (n : Z)
    (s : pyval) (w : world) :
  check_target cdata = Some (oid, n) →
  reported_status e n = Some s →
  eq_str s "paid" = false →
  eq_str s "active" = false →
  run (check_payment e cdata) w =
    (World (storage w) (catalog w) (orders w) (sent w ++ [EditText TInvalid []]),
     Returned).
Proof.
  intros Htarget Hstatus Hpaid Hactive. unfold run.
  by rewrite (check_payment_reported e cdata oid n s w Htarget Hstatus), Hpaid, Hactive.
Qed.

Lemma other_status_reports_invalid_witness :
  run (check_payment (gateway 0 "expired") "check:0123456789ab:42") purchased =
    (World (storage purchased) (catalog purchased) (orders purchased)
       (sent purchased ++ [EditText TInvalid []]),
     Returned).
Proof.
  apply (other_status_reports_invalid (gateway 0 "expired") "check:0123456789ab:42"
           "0123456789ab" 42 (PStr "expired")); reflexivity.
Defined.

(** The claim fails as stated: the gateway reports invoice 42 of the pending
    order as expired, the reconciliation returns, and the status of the order
    is still [pending], not [invalid]. *)
Lemma expired_invoice_leaves_order_pending :
  let e := gateway 0 "expired" in
  let cdata := "check:0123456789ab:42" in
  check_target cdata = Some ("0123456789ab", 42) ∧
  reported_status e 42 = Some (PStr "expired") ∧
  order_status "0123456789ab" purchased = Some "pending" ∧
  (dispatch e (CallbackQuery buyer cdata) purchased).2 = Returned ∧
  order_status "0123456789ab" (dispatch e (CallbackQuery buyer cdata) purchased).1
    = Some "pending" ∧
  order_status "0123456789ab" (dispatch e (CallbackQuery buyer cdata) purchased).1
    ≠ Some "invalid".
Proof. repeat split; try reflexivity. vm_compute. discriminate. Qed.

(** ** Where a paid status comes from *)

Lemma orders_run (h : handler unit) (w : world) :
  orders (run h w).1 = orders (h w).1.
Proof. unfold run. by destruct (h w) as [w' [ex|[]]]. Qed.

(** What the processing of one update can do to table [orders]: nothing, one
    new pending row, or the update of a reconciliation that saw a paid
    invoice. *)
Lemma dispatch_orders (e : env) (u : update) (w : world) :
  orders (dispatch e u w).1 = orders w ∨
  (∃ o, orders (dispatch e u w).1 = orders w ++ [o] ∧ status o = "pending" ∧
        existsb (λ r, String.eqb (id r) (id o)) (orders w) = false) ∨
  (∃ c cdata oid n,
     u = CallbackQuery c cdata ∧
     startswith cdata "check:" = true ∧
     check_target cdata = Some (oid, n) ∧
     reported_status e n = Some (PStr "paid") ∧
     orders (dispatch e u w).1 = set_paid_where_id oid (orders w)).
Proof.
  destruct u as [m mtext|c cdata]; unfold_dispatch.
  - repeat case_match; rewrite ?orders_run; left; try reflexivity.
    unfold got_nickname, Tg.got_nickname. unfold_handler. by repeat case_match.
  - repeat case_match; rewrite ?orders_run; try (left; reflexivity).
    all: try (left; unfold pick_game, Tg.pick_game, pick_package, Tg.pick_package; unfold_handler;
              by repeat case_match).
    + destruct (choose_asset_orders e c cdata w) as [Hsame|(o & Ho & Hp & Hf & _)];
        [by left|right; left; eauto].
    + destruct (check_payment_orders e cdata w) as [Hsame|(oid & n & Ht & Hr & Ho)];
        [by left|right; right].
      exists c, cdata, oid, n. repeat split; try done.
      match goal with H : _ && _ = true |- _ => by apply andb_true_iff in H as [? _] end.
Qed.







(** ** The back buttons *)

(** C5, the defect. The keyboards of [packages_kb] and [assets_kb] end with a
    back button, with callback data [back:games] and [back:packages]; no
    handler is registered for such data, so in every state the update is
    taken by no handler and the session stays where it is. *)
Theorem back_buttons_have_no_handler (e : env) (c : sender) (g : string) (w : world) :
  CallbackButton LBack "back:games" ∈ packages_kb g (catalog w) ∧
  CallbackButton LBack "back:packages" ∈ assets_kb ∧
  dispatch e (CallbackQuery c "back:games") w = (w, Unhandled) ∧
  dispatch e (CallbackQuery c "back:packages") w = (w, Unhandled).
Proof.
  repeat split; try reflexivity.
  - unfold packages_kb. apply elem_of_app. right. apply list_elem_of_here.
  - unfold assets_kb. apply elem_of_app. right. apply list_elem_of_here.
Qed.

(** The buyer of the sample flow presses the back button under the packages:
    the state is still [choosing_package] and the game is still recorded. *)
Example back_from_packages_stays :
  let w := run_events [Update gateway_down (CallbackQuery buyer "game:Genshin Impact")]
             initial in
  let w' := (dispatch gateway_down (CallbackQuery buyer "back:games") w).1 in
  state (get_session (key buyer) w) = Some choosing_package ∧
  state (get_session (key buyer) w') = Some choosing_package ∧
  data (get_session (key buyer) w') !! "game" = Some "Genshin Impact".
Proof. repeat split; reflexivity. Qed.

(** The same under the assets: the state is still [choosing_asset]. *)
Example back_from_assets_stays :
  let w := run_events purchase initial in
  let w' := (dispatch gateway_down (CallbackQuery buyer "back:packages") w).1 in
  state (get_session (key buyer) w) = Some choosing_asset ∧
  state (get_session (key buyer) w') = Some choosing_asset.
Proof. repeat split; reflexivity. Qed.


(** ** The sessions of a run *)

Lemma sessions_ok_insert (k : Z * Z) (s : session) (w w' : world) :
  sessions_ok w → session_ok s →
  storage w' = <[k := s]> (storage w) →
  sessions_ok w'.
Proof.
  intros Hw Hs Hst k'. unfold get_session. rewrite Hst.
  destruct (decide (k = k')) as [->|Hne].
  - by rewrite lookup_insert_eq.
  - rewrite lookup_insert_ne by done. apply Hw.
Qed.

Lemma sessions_ok_same (w w' : world) :
  sessions_ok w → storage w' = storage w → sessions_ok w'.
Proof. intros Hw Hst k. unfold get_session. rewrite Hst. apply Hw. Qed.

Lemma run_fst (h : handler unit) (w : world) : (run h w).1 = (h w).1.
Proof. unfold run. by destruct (h w) as [w' [ex|[]]]. Qed.

Ltac storage_cases :=
  unfold_handler; unfold put_session;
  repeat (case_match; simplify_eq; simpl);
  rewrite ?get_session_insert; simpl; rewrite ?insert_insert_eq;
  eauto.

Lemma pick_game_storage (c : sender) (cdata : string) (w : world) :
  storage (pick_game c cdata w).1 = storage w ∨
  ∃ g, storage (pick_game c cdata w).1 =
         <[key c := Session (Some choosing_package)
                      (<["game" := g]> (data (get_session (key c) w)))]> (storage w).
Proof. unfold pick_game, Tg.pick_game. storage_cases. Qed.

Lemma pick_package_storage (c : sender) (cdata : string) (w : world) :
  storage (pick_package c cdata w).1 = storage w ∨
  ∃ p, storage (pick_package c cdata w).1 =
         <[key c := Session (Some entering_nickname)
                      (<["package" := p]> (data (get_session (key c) w)))]> (storage w).
Proof. unfold pick_package, Tg.pick_package. storage_cases. Qed.

Lemma got_nickname_storage (m : sender) (mtext : option string) (w : world) :
  storage (got_nickname m mtext w).1 = storage w ∨
  ∃ n, storage (got_nickname m mtext w).1 =
         <[key m := Session (Some choosing_asset)
                      (<["nickname" := n]> (data (get_session (key m) w)))]> (storage w).
Proof. unfold got_nickname, Tg.got_nickname. storage_cases. Qed.

Lemma choose_asset_storage (e : env) (c : sender) (cdata : string) (w : world) :
  storage (choose_asset e c cdata w).1 = storage w ∨
  storage (choose_asset e c cdata w).1 = <[key c := no_session]> (storage w).
Proof. unfold choose_asset, Tg.choose_asset, insert_order. storage_cases. Qed.

Lemma check_payment_storage (e : env) (cdata : string) (w : world) :
  storage (check_payment e cdata w).1 = storage w.
Proof. unfold check_payment, Tg.check_payment. storage_cases. Qed.

Lemma cmd_start_storage (m : sender) (w : world) :
  storage (cmd_start m w).1 = <[key m := no_session]> (storage w).
Proof. unfold cmd_start, Tg.cmd_start. storage_cases. Qed.

Lemma dispatch_sessions_ok (e : env) (u : update) (w : world) :
  sessions_ok w → sessions_ok (dispatch e u w).1.
Proof.
  intros Hw. destruct u as [m mtext|c cdata]; unfold_dispatch.
  - repeat case_match; rewrite ?run_fst; try done.
    + eapply sessions_ok_insert; [done| |apply cmd_start_storage]. done.
    + match goal with H : _ && bool_decide _ = true |- _ =>
        apply andb_true_iff in H as [_ Hst%bool_decide_eq_true] end.
      destruct (got_nickname_storage m mtext w) as [Hsame|[n Hins]];
        [by eapply sessions_ok_same|].
      eapply sessions_ok_insert; [done| |exact Hins].
      pose proof (Hw (key m)) as Hk. unfold session_ok in *. rewrite Hst in Hk.
      simpl. destruct Hk as [Hg Hp].
      rewrite lookup_insert_eq, !lookup_insert_ne by done. eauto.
  - repeat case_match; rewrite ?run_fst; try done.
    + destruct (pick_game_storage c cdata w) as [Hsame|[g Hins]];
        [by eapply sessions_ok_same|].
      eapply sessions_ok_insert; [done| |exact Hins].
      unfold session_ok. simpl. rewrite lookup_insert_eq. eauto.
    + match goal with H : _ && bool_decide _ = true |- _ =>
        apply andb_true_iff in H as [_ Hst%bool_decide_eq_true] end.
      destruct (pick_package_storage c cdata w) as [Hsame|[p Hins]];
        [by eapply sessions_ok_same|].
      eapply sessions_ok_insert; [done| |exact Hins].
      pose proof (Hw (key c)) as Hk. unfold session_ok in *. rewrite Hst in Hk.
      simpl. rewrite lookup_insert_eq, lookup_insert_ne by done. eauto.
    + destruct (choose_asset_storage e c cdata w) as [Hsame|Hins];
        [by eapply sessions_ok_same|].
      eapply sessions_ok_insert; [done| |exact Hins]. done.
    + eapply sessions_ok_same; [done|apply check_payment_storage].
Qed.

Lemma run_events_sessions_ok (evs : list event) (w : world) :
  sessions_ok w → sessions_ok (run_events evs w).
Proof.
  revert w. induction evs as [|ev evs IH]; intros w Hw; [done|].
  apply (IH (step w ev)). destruct ev as [e u|cat]; [by apply dispatch_sessions_ok|].
  by eapply sessions_ok_same.
Qed.

(** X16. In every run from the start of the bot, a session in state
    [choosing_asset] holds a game, a package and a nickname: [choose_asset]
    finds the three keys it reads and raises no [KeyError]. *)
Lemma reachable_ready (evs : list event) (k : Z * Z) :
  state (get_session k (run_events evs initial)) = Some choosing_asset →
  ∃ g p n, ready k g p n (run_events evs initial).
Proof.
  intros Hst.
  assert (Hok : sessions_ok (run_events evs initial)).
  { apply run_events_sessions_ok. intros k'. unfold get_session. simpl.
    by rewrite lookup_empty. }
  specialize (Hok k). unfold session_ok in Hok. rewrite Hst in Hok.
  destruct Hok as ([g Hg] & [p Hp] & [n Hn]). by exists g, p, n.
Qed.

(** ** The primary key *)

Lemma ids_set_paid_where_id (oid : string) (rows : list order_row) :
  id <$> set_paid_where_id oid rows = id <$> rows.
Proof.
  unfold set_paid_where_id. rewrite <- list_fmap_compose.
  apply list_fmap_ext. intros i r _. simpl.
  by destruct (String.eqb (id r) oid), r.
Qed.

Lemma existsb_id_false (o : order_row) (rows : list order_row) :
  existsb (λ r, String.eqb (id r) (id o)) rows = false → id o ∉ id <$> rows.
Proof.
  intros Hfresh (r & Hid & Hr)%list_elem_of_fmap.
  apply not_true_iff_false in Hfresh. apply Hfresh.
  apply existsb_exists. exists r. split; [by apply list_elem_of_In|].
  rewrite Hid. apply String.eqb_refl.
Qed.

(** X15. The primary key holds along every run: when no two rows of table
    [orders] have the same [id], no two rows have after any run; the INSERT
    of [choose_asset] with an [id] that is taken raises and adds nothing. *)
Lemma run_events_ids_unique (evs : list event) (w : world) :
  NoDup (id <$> orders w) → NoDup (id <$> orders (run_events evs w)).
Proof.
  revert w. induction evs as [|ev evs IH]; intros w Hw; [done|].
  apply (IH (step w ev)). destruct ev as [e u|cat]; [|done]. simpl.
  destruct (dispatch_orders e u w)
    as [->|[(o & -> & _ & Hfresh)|(c & cdata & oid & n & _ & _ & _ & _ & ->)]].
  - done.
  - rewrite fmap_app. apply NoDup_app. split; [done|]. split.
    + intros x Hx ->%list_elem_of_singleton.
      by apply (existsb_id_false o (orders w)).
    + apply NoDup_singleton.
  - by rewrite ids_set_paid_where_id.
Qed.

(** * Further properties of the code *)

(** ** The gateway client *)

Lemma create_invoice_request (e : env) (a : string) (amount : float) (d pl : string) :
  create_invoice e a amount d pl =
    let '(ok, body) := crypto_pay e "createInvoice" (invoice_request a amount d pl) in
    if ok then get body "result" PNone else inr PNone.
Proof. reflexivity. Qed.

(** X1. [create_invoice] never raises, and it returns [None] when the HTTP
    exchange raises and when the reply has no true [ok] (a reply that is not
    a dict included). *)
Theorem create_invoice_never_raises (e : env) (a : string) (amount : float)
    (d pl : string) :
  (∃ v, create_invoice e a amount d pl = inr v) ∧
  (∀ msg, http_post e create_url (invoice_request a amount d pl) = inl msg →
          create_invoice e a amount d pl = inr PNone) ∧
  (∀ body, http_post e create_url (invoice_request a amount d pl) = inr body →
           (∀ ok, get body "ok" PNone = inr ok → truthy ok = false) →
           create_invoice e a amount d pl = inr PNone).
Proof.
  split; [apply create_invoice_returns|]. split.
  - intros msg Hpost. apply create_invoice_failure.
    by eapply crypto_pay_transport_failure.
  - intros body Hpost Hok. apply create_invoice_failure.
    by eapply crypto_pay_not_ok.
Qed.

(** X2. When the reply is a dict with a true [ok], [create_invoice] returns
    what the reply holds under [result], and [None] when it holds nothing
    there. *)
Theorem create_invoice_returns_result (e : env) (a : string) (amount : float)
    (d pl : string) (items : list (string * pyval)) (ok : pyval) :
  http_post e create_url (invoice_request a amount d pl) = inr (PDict items) →
  assoc "ok" items = Some ok →
  truthy ok = true →
  create_invoice e a amount d pl = inr (default PNone (assoc "result" items)).
Proof.
  intros Hpost Hok Htrue. rewrite create_invoice_request. unfold crypto_pay.
  fold create_url. rewrite Hpost. simpl. rewrite Hok. simpl. by rewrite Htrue.
Qed.

Lemma create_invoice_returns_result_witness :
  create_invoice (gateway 0 "active") "USDT" 0x1.199999999999ap+0%float
    "Genshin Impact - 60 Genesis Crystals (nick: Player123)" "0123456789ab" =
  inr (PDict [("invoice_id", PInt 42); ("pay_url", PStr "https://pay.example/42")]).
Proof.
  apply (create_invoice_returns_result (gateway 0 "active") "USDT" _ _ _
           [("ok", PBool true);
            ("result", PDict [("invoice_id", PInt 42);
                              ("pay_url", PStr "https://pay.example/42")])]
           (PBool true)); reflexivity.
Defined.

Lemma get_invoice_request (e : env) (n : Z) :
  get_invoice e n =
    let '(ok, body) := crypto_pay e "getInvoices" (status_request n) in
    if ok then
      result ← get body "result" (PDict []);
      arr ← get result "items" (PList []);
      if truthy arr then item0 arr else inr PNone
    else inr PNone.
Proof. reflexivity. Qed.

(** X3. [get_invoice] returns [None] when the HTTP exchange raises, when the
    reply has no true [ok], and when the reply has a true [ok] but no
    [result] or a [result] without items; it returns the first item when the
    items are a list that is not empty. *)
Theorem get_invoice_cases (e : env) (n : Z) :
  (∀ msg, http_post e status_url (status_request n) = inl msg →
          get_invoice e n = inr PNone) ∧
  (∀ body, http_post e status_url (status_request n) = inr body →
           (∀ ok, get body "ok" PNone = inr ok → truthy ok = false) →
           get_invoice e n = inr PNone) ∧
  (∀ items ok, http_post e status_url (status_request n) = inr (PDict items) →
               assoc "ok" items = Some ok → truthy ok = true →
               (assoc "result" items = None →
                get_invoice e n = inr PNone) ∧
               (∀ result, assoc "result" items = Some (PDict result) →
                          (assoc "items" result = None ∨
                           assoc "items" result = Some (PList [])) →
                          get_invoice e n = inr PNone) ∧
               (∀ result x rest, assoc "result" items = Some (PDict result) →
                                 assoc "items" result = Some (PList (x :: rest)) →
                                 get_invoice e n = inr x)).
Proof.
  split; [|split].
  - intros msg Hpost. rewrite get_invoice_request.
    pose proof (crypto_pay_transport_failure e "getInvoices" _ msg Hpost) as Hno.
    destruct (crypto_pay e _ _) as [ok body]. simpl in Hno. by rewrite Hno.
  - intros body Hpost Hok. rewrite get_invoice_request.
    pose proof (crypto_pay_not_ok e "getInvoices" _ body Hpost Hok) as Hno.
    destruct (crypto_pay e _ _) as [ok' body']. simpl in Hno. by rewrite Hno.
  - intros items ok Hpost Hok Htrue.
    assert (Hpay : crypto_pay e "getInvoices" (status_request n) = (true, PDict items)).
    { unfold crypto_pay. fold status_url. rewrite Hpost. simpl. rewrite Hok. simpl.
      by rewrite Htrue. }
    rewrite get_invoice_request, Hpay. simpl. split; [|split].
    + by intros ->.
    + intros result -> [Hit|Hit]; simpl; by rewrite Hit.
    + intros result x rest -> Hit. simpl. by rewrite Hit.
Qed.

(** ** Reconciliation, case by case *)

Lemma int_of_str_error (s : string) (ex : exn) :
  int_of_str s = inl ex → ex = ValueError.
Proof.
  assert (Hbody : ∀ t ex', from_option inr (inl ValueError) (digits 0 false t)
                            = inl ex' → ex' = ValueError :> exn).
  { intros t ex'. destruct (digits 0 false t); simpl; congruence. }
  unfold int_of_str. intros Herr.
  repeat (case_match; simplify_eq); eauto.
Qed.

(** [check_payment] once the callback data name an order and an invoice. *)
Lemma check_payment_target (e : env) (cdata oid : string) (n : Z) (w : world) :
  check_target cdata = Some (oid, n) →
  check_payment e cdata w =
    match get_invoice e n with
    | inl ex => (w, inl ex)
    | inr inv =>
        if truthy inv then
          match get inv "status" PNone with
          | inl ex => (w, inl ex)
          | inr s =>
              if eq_str s "paid" then
                (World (storage w) (catalog w) (set_paid_where_id oid (orders w))
                   (sent w ++ [EditText (TPaid oid) []]), inr tt)
              else if eq_str s "active" then
                (World (storage w) (catalog w) (orders w) (sent w ++ [Alert TNotYet]),
                 inr tt)
              else
                (World (storage w) (catalog w) (orders w)
                   (sent w ++ [EditText TInvalid []]), inr tt)
          end
        else
          (World (storage w) (catalog w) (orders w) (sent w ++ [Alert TCheckError]),
           inr tt)
    end.
Proof.
  unfold check_target, check_payment, Tg.check_payment. intros Htarget.
  repeat (case_match; simplify_eq).
  all: unfold_handler; rewrite ?H; simpl.
  all: repeat (case_match; simplify_eq); try reflexivity.
  all: repeat match goal with
         | H : negb _ = true |- _ => apply negb_true_iff in H
         | H : negb _ = false |- _ => apply negb_false_iff in H
         end; congruence.
Qed.

(** X4. A reply with a true [ok] whose [result] is there and is not a dict
    ([null], say) makes [get_invoice] raise: [check_payment] raises with it,
    and has sent nothing and written nothing. *)
Theorem get_invoice_raises_on_bad_result (e : env) (cdata oid : string) (n : Z)
    (items : list (string * pyval)) (ok result : pyval) (w : world) :
  http_post e status_url (status_request n) = inr (PDict items) →
  assoc "ok" items = Some ok →
  truthy ok = true →
  assoc "result" items = Some result →
  (∀ d, result ≠ PDict d) →
  check_target cdata = Some (oid, n) →
  get_invoice e n = inl AttributeError ∧
  run (check_payment e cdata) w = (w, Raised AttributeError).
Proof.
  intros Hpost Hok Htrue Hres Hdict Htarget.
  assert (Hget : get_invoice e n = inl AttributeError).
  { rewrite get_invoice_request. unfold crypto_pay. fold status_url.
    rewrite Hpost. simpl. rewrite Hok. simpl. rewrite Htrue. simpl. rewrite Hres. simpl.
    destruct result; try done. by destruct (Hdict d). }
  split; [done|]. unfold run.
  by rewrite (check_payment_target e cdata oid n w Htarget), Hget.
Qed.

Lemma get_invoice_raises_on_bad_result_witness :
  get_invoice gateway_null 42 = inl AttributeError ∧
  run (check_payment gateway_null "check:0123456789ab:42") purchased =
    (purchased, Raised AttributeError).
Proof.
  apply (get_invoice_raises_on_bad_result gateway_null "check:0123456789ab:42"
           "0123456789ab" 42 [("ok", PBool true); ("result", PNone)]
           (PBool true) PNone); try reflexivity.
  intros d. discriminate.
Defined.

(** X5. When [get_invoice] gives no record ([None] or another false value,
    as after any failure of the gateway), [check_payment] returns after the
    alert of the failed check: storage, catalog and orders are as before. *)
Theorem check_without_record_changes_nothing (e : env) (cdata oid : string) (n : Z)
    (inv : pyval) (w : world) :
  check_target cdata = Some (oid, n) →
  get_invoice e n = inr inv →
  truthy inv = false →
  run (check_payment e cdata) w =
    (World (storage w) (catalog w) (orders w) (sent w ++ [Alert TCheckError]),
     Returned).
Proof.
  intros Htarget Hget Hfalse. unfold run.
  by rewrite (check_payment_target e cdata oid n w Htarget), Hget, Hfalse.
Qed.

Lemma check_without_record_changes_nothing_witness :
  run (check_payment gateway_down "check:0123456789ab:42") purchased =
    (World (storage purchased) (catalog purchased) (orders purchased)
       (sent purchased ++ [Alert TCheckError]),
     Returned).
Proof.
  apply (check_without_record_changes_nothing gateway_down "check:0123456789ab:42"
           "0123456789ab" 42 PNone); reflexivity.
Defined.

(** X6. When the gateway reports the invoice as active, [check_payment]
    returns after the alert that the payment has not arrived and leaves
    storage, catalog and orders as they are. *)
Theorem check_of_active_invoice_changes_nothing (e : env) (cdata oid : string) (n : Z)
    (w : world) :
  check_target cdata = Some (oid, n) →
  reported_status e n = Some (PStr "active") →
  run (check_payment e cdata) w =
    (World (storage w) (catalog w) (orders w) (sent w ++ [Alert TNotYet]), Returned).
Proof.
  intros Htarget Hstatus. unfold run.
  by rewrite (check_payment_reported e cdata oid n _ w Htarget Hstatus).
Qed.

Lemma check_of_active_invoice_changes_nothing_witness :
  run (check_payment (gateway 0 "active") "check:0123456789ab:42") purchased =
    (World (storage purchased) (catalog purchased) (orders purchased)
       (sent purchased ++ [Alert TNotYet]),
     Returned).
Proof.
  apply (check_of_active_invoice_changes_nothing (gateway 0 "active")
           "check:0123456789ab:42" "0123456789ab" 42); reflexivity.
Defined.

Lemma order_status_other (oid oid' : string) (st : gmap (Z * Z) session)
    (cat : list catalog_row) (rows : list order_row) (out out' : list action) :
  oid' ≠ oid →
  order_status oid' (World st cat (set_paid_where_id oid rows) out') =
  order_status oid' (World st cat rows out).
Proof.
  intros Hne. unfold order_status. simpl. rewrite find_set_paid_where_id.
  assert (String.eqb oid' oid = false) as -> by (by apply String.eqb_neq).
  by destruct (List.find _ rows).
Qed.

(** X7. When the gateway reports the invoice as paid, [check_payment]
    returns after the success message, the order named in the callback data,
    if the table has it, is [paid], and the status of every other order, the
    number of rows, the storage and the catalog are as before. *)
Theorem check_of_paid_invoice_marks_order (e : env) (cdata oid : string) (n : Z)
    (s : string) (w : world) :
  check_target cdata = Some (oid, n) →
  reported_status e n = Some (PStr "paid") →
  order_status oid w = Some s →
  ∃ w', run (check_payment e cdata) w = (w', Returned) ∧
        order_status oid w' = Some "paid" ∧
        (∀ oid', oid' ≠ oid → order_status oid' w' = order_status oid' w) ∧
        length (orders w') = length (orders w) ∧
        storage w' = storage w ∧
        catalog w' = catalog w ∧
        sent w' = sent w ++ [EditText (TPaid oid) []].
Proof.
  intros Htarget Hstatus Hrow. unfold run.
  rewrite (check_payment_reported e cdata oid n _ w Htarget Hstatus). simpl.
  eexists; split; [reflexivity|]. destruct w as [st cat rows out]. simpl in *.
  split; [by eapply order_status_set_paid|].
  split; [intros oid' Hne; by apply order_status_other|].
  split; [|done]. unfold set_paid_where_id. by rewrite length_fmap.
Qed.

Lemma check_of_paid_invoice_marks_order_witness :
  ∃ w', run (check_payment (gateway 42 "active") "check:0123456789ab:42") purchased
          = (w', Returned) ∧
        order_status "0123456789ab" w' = Some "paid" ∧
        (∀ oid', oid' ≠ "0123456789ab" →
                 order_status oid' w' = order_status oid' purchased) ∧
        length (orders w') = length (orders purchased) ∧
        storage w' = storage purchased ∧
        catalog w' = catalog purchased ∧
        sent w' = sent purchased ++ [EditText (TPaid "0123456789ab") []].
Proof.
  apply (check_of_paid_invoice_marks_order (gateway 42 "active")
           "check:0123456789ab:42" "0123456789ab" 42 "pending"); reflexivity.
Defined.

Lemma set_paid_where_id_absent (oid : string) (rows : list order_row) :
  List.find (λ r, String.eqb (id r) oid) rows = None →
  set_paid_where_id oid rows = rows.
Proof.
  induction rows as [|r rows IH]; [done|]. simpl.
  destruct (String.eqb (id r) oid); [done|]. intros Hnone. by rewrite IH.
Qed.

(** X8. A check callback that names an order the table does not have still
    gets the success message when the gateway reports the invoice as paid;
    the UPDATE matches no row and table [orders] is unchanged. *)
Theorem check_of_unknown_order_reports_success (e : env) (cdata oid : string) (n : Z)
    (w : world) :
  check_target cdata = Some (oid, n) →
  reported_status e n = Some (PStr "paid") →
  order_status oid w = None →
  run (check_payment e cdata) w =
    (World (storage w) (catalog w) (orders w) (sent w ++ [EditText (TPaid oid) []]),
     Returned).
Proof.
  intros Htarget Hstatus Hrow. unfold run.
  rewrite (check_payment_reported e cdata oid n _ w Htarget Hstatus). simpl.
  rewrite set_paid_where_id_absent; [done|].
  unfold order_status in Hrow. by destruct (List.find _ (orders w)).
Qed.

Lemma check_of_unknown_order_reports_success_witness :
  run (check_payment (gateway 42 "active") "check:ffffffffffff:42") purchased =
    (World (storage purchased) (catalog purchased) (orders purchased)
       (sent purchased ++ [EditText (TPaid "ffffffffffff") []]),
     Returned).
Proof.
  apply (check_of_unknown_order_reports_success (gateway 42 "active")
           "check:ffffffffffff:42" "ffffffffffff" 42); reflexivity.
Defined.

(** X9. Callback data that do not split at the colons into exactly three
    parts, or whose third part is no integer, make [check_payment] raise
    [ValueError]; the gateway is not asked and nothing is sent or written. *)
Theorem check_of_malformed_data_raises (e : env) (cdata : string) (w : world) :
  check_target cdata = None →
  run (check_payment e cdata) w = (w, Raised ValueError).
Proof.
  unfold check_target, check_payment, Tg.check_payment. intros Htarget.
  unfold_handler. unfold lift.
  repeat (case_match; simplify_eq; simpl in *); try done.
  all: match goal with H : int_of_str _ = inl _ |- _ =>
         by apply int_of_str_error in H as -> end.
Qed.

Lemma check_of_malformed_data_raises_witness :
  run (check_payment gateway_down "check:0123456789ab") purchased =
    (purchased, Raised ValueError) ∧
  run (check_payment gateway_down "check:0123456789ab:4x") purchased =
    (purchased, Raised ValueError).
Proof.
  split.
  - apply (check_of_malformed_data_raises gateway_down "check:0123456789ab").
    reflexivity.
  - apply (check_of_malformed_data_raises gateway_down "check:0123456789ab:4x").
    reflexivity.
Defined.

(** ** What every update leaves alone *)

Ltac handler_cases :=
  unfold cmd_start, Tg.cmd_start, pick_game, Tg.pick_game, pick_package, Tg.pick_package, got_nickname, Tg.got_nickname, choose_asset, Tg.choose_asset, check_payment, Tg.check_payment,
    insert_order;
  unfold_handler; unfold lift, put_session;
  repeat (case_match; simplify_eq; simpl in *).










Lemma catalog_run (h : handler unit) (w : world) :
  catalog (run h w).1 = catalog (h w).1.
Proof. unfold run. by destruct (h w) as [w' [ex|[]]]. Qed.

Lemma dispatch_catalog (e : env) (u : update) (w : world) :
  catalog (dispatch e u w).1 = catalog w.
Proof.
  destruct u as [m mtext|c cdata]; unfold_dispatch; repeat case_match;
    rewrite ?catalog_run; try done; handler_cases; done.
Qed.

Lemma dispatch_storage (e : env) (u : update) (w : world) :
  storage (dispatch e u w).1 = storage w ∨
  ∃ s, storage (dispatch e u w).1 = <[key (who_sent u) := s]> (storage w).
Proof.
  destruct u as [m mtext|c cdata]; unfold_dispatch; simpl who_sent;
    repeat case_match; rewrite ?run_fst; try (by left).
  - right. eexists. apply cmd_start_storage.
  - destruct (got_nickname_storage m mtext w) as [->|[n ->]]; eauto.
  - destruct (pick_game_storage c cdata w) as [->|[g ->]]; eauto.
  - destruct (pick_package_storage c cdata w) as [->|[p ->]]; eauto.
  - destruct (choose_asset_storage e c cdata w) as [->| ->]; eauto.
  - left. apply check_payment_storage.
Qed.

(** X11. An update changes no session but the one of the chat and user it
    comes from, and it never writes table [catalog]. *)
Theorem update_touches_own_session_only (e : env) (u : update) (w : world) (k : Z * Z) :
  k ≠ key (who_sent u) →
  get_session k (dispatch e u w).1 = get_session k w ∧
  catalog (dispatch e u w).1 = catalog w.
Proof.
  intros Hk. split; [|apply dispatch_catalog].
  unfold get_session.
  destruct (dispatch_storage e u w) as [->|[s ->]]; [done|].
  by rewrite lookup_insert_ne.
Qed.

Lemma update_touches_own_session_only_witness :
  let w := run_events purchase initial in
  let other := Sender 8 8 None in
  let w' := (dispatch (gateway 0 "active") (CallbackQuery other "game:World of Warcraft") w).1 in
  state (get_session (key other) w') = Some choosing_package ∧
  get_session (key buyer) w' = get_session (key buyer) w ∧
  catalog w' = catalog w.
Proof.
  split; [reflexivity|].
  apply (update_touches_own_session_only (gateway 0 "active")
           (CallbackQuery (Sender 8 8 None) "game:World of Warcraft")
           (run_events purchase initial) (key buyer)).
  vm_compute. discriminate.
Defined.

(** ** Table [orders] along a run *)

Lemma kept_refl (rows : list order_row) : Forall2 kept rows rows.
Proof. induction rows; constructor; [by left|done]. Qed.

Lemma set_status_paid_idem (r : order_row) :
  set_status_paid (set_status_paid r) = set_status_paid r.
Proof. by destruct r. Qed.

Lemma kept_set_paid (oid : string) (rows rows' : list order_row) :
  Forall2 kept rows rows' → Forall2 kept rows (set_paid_where_id oid rows').
Proof.
  intros Hk. induction Hk as [|r r' rows rows' Hr _ IH]; [constructor|].
  unfold set_paid_where_id. simpl. constructor; [|exact IH].
  destruct (String.eqb (id r') oid); [|done].
  destruct Hr as [->| ->]; right; [done|apply set_status_paid_idem].
Qed.

Lemma step_orders_grow (w : world) (ev : event) :
  ∃ old new, orders (step w ev) = old ++ new ∧ Forall2 kept (orders w) old.
Proof.
  destruct ev as [e u|cat]; simpl.
  - destruct (dispatch_orders e u w)
      as [->|[(o & -> & _)|(c & cdata & oid & n & _ & _ & _ & _ & ->)]].
    + exists (orders w), []. rewrite app_nil_r. split; [done|apply kept_refl].
    + exists (orders w), [o]. split; [done|apply kept_refl].
    + exists (set_paid_where_id oid (orders w)), []. rewrite app_nil_r.
      split; [done|]. apply kept_set_paid, kept_refl.
  - exists (orders w), []. rewrite app_nil_r. split; [done|apply kept_refl].
Qed.

Lemma kept_trans (r1 r2 r3 : order_row) : kept r1 r2 → kept r2 r3 → kept r1 r3.
Proof.
  intros [->| ->] [->| ->]; [by left|by right|by right|].
  right. apply set_status_paid_idem.
Qed.

(** X12. Along every run no row of table [orders] is deleted or moved: the
    rows a world has stay at the head of the table, each either as it was or
    with its status set to [paid] and no other column changed; what is new
    comes after them. *)
Theorem orders_rows_are_kept (evs : list event) (w : world) :
  ∃ old new, orders (run_events evs w) = old ++ new ∧ Forall2 kept (orders w) old.
Proof.
  revert w. induction evs as [|ev evs IH]; intros w.
  - exists (orders w), []. rewrite app_nil_r. split; [done|apply kept_refl].
  - destruct (IH (step w ev)) as (old2 & new2 & Hrun & Hk2).
    destruct (step_orders_grow w ev) as (old1 & new1 & Hstep & Hk1).
    rewrite Hstep in Hk2. apply Forall2_app_inv_l in Hk2 as (o1 & o2 & Ho1 & Ho2 & ->).
    exists o1, (o2 ++ new2). split.
    + change (run_events (ev :: evs) w) with (run_events evs (step w ev)).
      by rewrite Hrun, app_assoc.
    + clear -Hk1 Ho1. revert o1 Ho1.
      induction Hk1 as [|r r' rows rows' Hr _ IHk]; intros o1 Ho1.
      * by apply Forall2_nil_inv_l in Ho1 as ->.
      * apply Forall2_cons_inv_l in Ho1 as (r'' & o1' & Hr' & Ho1' & ->).
        constructor; [by eapply kept_trans|by apply IHk].
Qed.

(** X13. The only statuses the bot writes are [pending] and [paid]: when
    every order of a world has one of the two, so has every order of every
    world reached from it. No order gets another status, [invalid] included. *)
Theorem status_is_pending_or_paid (evs : list event) (w : world) (r : order_row) :
  (∀ r0, r0 ∈ orders w → status r0 = "pending" ∨ status r0 = "paid") →
  r ∈ orders (run_events evs w) →
  status r = "pending" ∨ status r = "paid".
Proof.
  revert w r. induction evs as [|ev evs IH]; intros w r Hw Hr; [by apply Hw|].
  apply (IH (step w ev)); [|done]. clear r Hr. intros r Hr.
  destruct ev as [e u|cat]; [|by apply Hw]. simpl in Hr.
  destruct (dispatch_orders e u w)
    as [Hsame|[(o & Ho & Hp & _)|(c & cdata & oid & n & _ & _ & _ & _ & Hset)]].
  - apply Hw. by rewrite <- Hsame.
  - rewrite Ho in Hr. apply elem_of_app in Hr as [Hr|Hr%list_elem_of_singleton];
      [by apply Hw|subst r; by left].
  - rewrite Hset in Hr. unfold set_paid_where_id in Hr.
    apply list_elem_of_fmap in Hr as (r0 & -> & Hr0).
    destruct (String.eqb (id r0) oid); [right; by destruct r0|by apply Hw].
Qed.

Lemma status_is_pending_or_paid_witness :
  status (paid_order 42) = "pending" ∨ status (paid_order 42) = "paid".
Proof.
  apply (status_is_pending_or_paid reconciled initial (paid_order 42)).
  - intros r0 Hr0. simpl in Hr0. by apply elem_of_nil in Hr0.
  - vm_compute. apply list_elem_of_here.
Defined.

Lemma find_app_some {A} (f : A → bool) (l1 l2 : list A) (x : A) :
  List.find f l1 = Some x → List.find f (l1 ++ l2) = Some x.
Proof.
  induction l1 as [|a l1 IH]; [done|]. simpl. by destruct (f a).
Qed.

Lemma step_paid_stays (w : world) (ev : event) (oid : string) :
  order_status oid w = Some "paid" → order_status oid (step w ev) = Some "paid".
Proof.
  intros Hpaid. destruct ev as [e u|cat]; [|done]. simpl.
  destruct (dispatch_orders e u w)
    as [Hsame|[(o & Ho & _)|(c & cdata & oid0 & n & _ & _ & _ & _ & Hset)]];
    unfold order_status in *.
  - by rewrite Hsame.
  - rewrite Ho. destruct (List.find _ (orders w)) as [r|] eqn:Hfind; [|done].
    by rewrite (find_app_some _ _ _ _ Hfind).
  - rewrite Hset, find_set_paid_where_id, Hpaid. simpl. by destruct (String.eqb oid oid0).
Qed.

(** X14. A paid order stays paid: once the status of an order is [paid], it
    is [paid] in every world reached afterwards, whatever the gateway reports
    later and whatever callbacks arrive. *)
Theorem paid_order_stays_paid (evs : list event) (w : world) (oid : string) :
  order_status oid w = Some "paid" →
  order_status oid (run_events evs w) = Some "paid".
Proof.
  revert w. induction evs as [|ev evs IH]; intros w Hpaid; [done|].
  apply (IH (step w ev)). by apply step_paid_stays.
Qed.

Lemma paid_order_stays_paid_witness :
  let w := run_events reconciled initial in
  order_status "0123456789ab" w = Some "paid" ∧
  order_status "0123456789ab"
    (run_events [Update (gateway 0 "expired")
                   (CallbackQuery buyer "check:0123456789ab:42");
                 Update gateway_down (CallbackQuery buyer "check:0123456789ab:42")] w)
    = Some "paid".
Proof.
  split; [reflexivity|].
  apply (paid_order_stays_paid
           [Update (gateway 0 "expired") (CallbackQuery buyer "check:0123456789ab:42");
            Update gateway_down (CallbackQuery buyer "check:0123456789ab:42")]
           (run_events reconciled initial) "0123456789ab").
  reflexivity.
Defined.

Lemma run_events_ids_unique_witness :
  NoDup (id <$> orders (run_events reconciled initial)).
Proof.
  apply (run_events_ids_unique reconciled initial). simpl. apply NoDup_nil_2.
Defined.

(** ** Witnesses of the run and commit properties *)

Lemma reachable_ready_witness :
  ∃ g p n, ready (key buyer) g p n (run_events purchase initial).
Proof. apply (reachable_ready purchase (key buyer)). reflexivity. Defined.

Lemma pay_kb_check_target_witness :
  ∃ cdata, CallbackButton LIPaid cdata ∈ pay_kb PNone "0123456789ab" 42 ∧
           startswith cdata "check:" = true ∧
           check_target cdata = Some ("0123456789ab", 42).
Proof. apply (pay_kb_check_target PNone "0123456789ab" 42). reflexivity. Defined.


(** ** Routing by state *)

Lemma prefix_routing :
  (∀ r, startswith ("game:" +:+ r) "game:" = true) ∧
  (∀ r, startswith ("pkg:" +:+ r) "game:" = false ∧
        startswith ("pkg:" +:+ r) "pkg:" = true ∧
        startswith ("pkg:" +:+ r) "asset:" = false ∧
        startswith ("pkg:" +:+ r) "check:" = false) ∧
  (∀ r, startswith ("check:" +:+ r) "game:" = false ∧
        startswith ("check:" +:+ r) "pkg:" = false ∧
        startswith ("check:" +:+ r) "asset:" = false ∧
        startswith ("check:" +:+ r) "check:" = true).
Proof. repeat split; try reflexivity; by destruct r. Qed.

(** X19. A callback is taken only in the state of its handler: package data
    outside [choosing_package], asset data outside [choosing_asset] and check
    data while any state is set are taken by no handler and change nothing.
    So the check button of an earlier order does nothing while a new purchase
    is under way. *)
Theorem callback_outside_its_state_is_ignored (e : env) (c : sender) (rest : string)
    (w : world) :
  (state (get_session (key c) w) ≠ Some choosing_package →
   dispatch e (CallbackQuery c ("pkg:" +:+ rest)) w = (w, Unhandled)) ∧
  (state (get_session (key c) w) ≠ Some choosing_asset →
   dispatch e (CallbackQuery c ("asset:" +:+ rest)) w = (w, Unhandled)) ∧
  (state (get_session (key c) w) ≠ None →
   dispatch e (CallbackQuery c ("check:" +:+ rest)) w = (w, Unhandled)).
Proof.
  destruct prefix_routing as (_ & Hpkg & Hcheck).
  destruct (Hpkg rest) as (Hp1 & Hp2 & Hp3 & Hp4).
  destruct (Hcheck rest) as (Hc1 & Hc2 & Hc3 & Hc4).
  split; [|split]; intros Hst.
  - unfold_dispatch. rewrite Hp1, Hp2, Hp3, Hp4.
    rewrite bool_decide_eq_false_2 by done. reflexivity.
  - by apply dispatch_asset_unhandled.
  - unfold_dispatch. rewrite Hc1, Hc2, Hc3, Hc4.
    rewrite (bool_decide_eq_false_2 (state (get_session (key c) w) = None)) by done.
    reflexivity.
Qed.

Lemma callback_outside_its_state_is_ignored_witness :
  let w := run_events purchase initial in
  state (get_session (key buyer) w) = Some choosing_asset ∧
  dispatch (gateway 42 "active") (CallbackQuery buyer "check:0123456789ab:42") w
    = (w, Unhandled).
Proof.
  split; [reflexivity|].
  apply (callback_outside_its_state_is_ignored (gateway 42 "active") buyer
           "0123456789ab:42" (run_events purchase initial)).
  vm_compute. discriminate.
Defined.

(** X20. While a state other than [entering_nickname] is set, every message
    is ignored, [/start] included: [cmd_start] is registered without a state
    and takes a message only when no state is set. *)
Theorem message_outside_nickname_state_is_ignored (e : env) (m : sender)
    (mtext : option string) (s : OrderFSM) (w : world) :
  state (get_session (key m) w) = Some s →
  s ≠ entering_nickname →
  dispatch e (Message m mtext) w = (w, Unhandled).
Proof.
  intros Hst Hs. unfold_dispatch. rewrite Hst.
  rewrite !bool_decide_eq_false_2 by congruence.
  by rewrite !andb_false_r.
Qed.

Lemma message_outside_nickname_state_is_ignored_witness :
  let w := run_events purchase initial in
  command_start (gateway 0 "active") "/start" = true ∧
  dispatch (gateway 0 "active") (Message buyer (Some "/start")) w = (w, Unhandled).
Proof.
  split; [reflexivity|].
  apply (message_outside_nickname_state_is_ignored (gateway 0 "active") buyer
           (Some "/start") choosing_asset (run_events purchase initial)).
  - reflexivity.
  - discriminate.
Defined.

(** ** The selection steps *)

Lemma game_data_split (g : string) : index1 (split_colon_1 ("game:" +:+ g)) = inr g.
Proof. reflexivity. Qed.

Lemma pkg_data_split (p : string) : index1 (split_colon_1 ("pkg:" +:+ p)) = inr p.
Proof. reflexivity. Qed.

Lemma dispatch_game (e : env) (c : sender) (g : string) (w : world) :
  dispatch e (CallbackQuery c ("game:" +:+ g)) w =
    (World (<[key c := Session (Some choosing_package)
                         (<["game" := g]> (data (get_session (key c) w)))]> (storage w))
       (catalog w) (orders w)
       (sent w ++ [EditText (TChoosePackage g) (packages_kb g (catalog w))]),
     Returned).
Proof.
  unfold_dispatch. destruct prefix_routing as (-> & _).
  unfold pick_game, Tg.pick_game. rewrite game_data_split. unfold_handler. unfold put_session. simpl.
  by rewrite get_session_insert, insert_insert_eq.
Qed.

Lemma dispatch_pkg (e : env) (c : sender) (p : string) (w : world) :
  state (get_session (key c) w) = Some choosing_package →
  dispatch e (CallbackQuery c ("pkg:" +:+ p)) w =
    (World (<[key c := Session (Some entering_nickname)
                         (<["package" := p]> (data (get_session (key c) w)))]> (storage w))
       (catalog w) (orders w) (sent w ++ [EditText TAskNickname []]),
     Returned).
Proof.
  intros Hst. unfold_dispatch. destruct prefix_routing as (_ & Hpkg & _).
  destruct (Hpkg p) as (-> & -> & _). rewrite Hst, bool_decide_eq_true_2 by done.
  unfold pick_package, Tg.pick_package. rewrite pkg_data_split. unfold_handler. unfold put_session. simpl.
  by rewrite get_session_insert, insert_insert_eq.
Qed.

(** X21. A game callback is taken in every state and for every game name,
    in the catalog or not: the session goes to [choosing_package] with the
    game recorded over the data it had, the package keyboard of that game is
    shown, and table [orders] is untouched. *)
Theorem game_callback_taken_in_any_state (e : env) (c : sender) (g : string)
    (w : world) :
  ∃ w', dispatch e (CallbackQuery c ("game:" +:+ g)) w = (w', Returned) ∧
        get_session (key c) w' =
          Session (Some choosing_package)
                  (<["game" := g]> (data (get_session (key c) w))) ∧
        orders w' = orders w ∧
        sent w' = sent w ++ [EditText (TChoosePackage g) (packages_kb g (catalog w))].
Proof.
  rewrite dispatch_game. eexists; split; [reflexivity|].
  by rewrite get_session_insert.
Qed.

Lemma run_events_cons (ev : event) (evs : list event) (w : world) :
  run_events (ev :: evs) w = run_events evs (step w ev).
Proof. reflexivity. Qed.

Lemma step_update (e : env) (u : update) (w : world) :
  step w (Update e u) = (dispatch e u w).1.
Proof. reflexivity. Qed.

(** X22. The three selection steps compose: from any world and any state of
    the buyer, a game callback, a package callback and a text of more than
    one character, in this order, leave the buyer's session ready for the
    commit with exactly that game, that package and the stripped text, and
    leave tables [orders] and [catalog] as they were. *)
Theorem selection_steps_make_session_ready (e1 e2 e3 : env) (c : sender)
    (g p t : string) (w : world) :
  (1 < String.length t)%nat →
  let w3 := run_events [Update e1 (CallbackQuery c ("game:" +:+ g));
                        Update e2 (CallbackQuery c ("pkg:" +:+ p));
                        Update e3 (Message c (Some t))] w in
  ready (key c) g p (strip t) w3 ∧
  orders w3 = orders w ∧
  catalog w3 = catalog w.
Proof.
  intros Hlen w3. subst w3.
  rewrite !run_events_cons, !step_update.
  rewrite dispatch_game. cbn [fst].
  rewrite dispatch_pkg by (by rewrite get_session_insert).
  cbn [fst]. rewrite !get_session_insert. cbn [data].
  rewrite dispatch_nickname; [|by rewrite get_session_insert|done].
  change (run_events [] ?x) with x.
  match goal with
  | |- context [run (got_nickname c (Some t)) ?w0] =>
      destruct (got_nickname_spec c t w0) as (w' & Hrun & Hsess & Horders & Hcat & _)
  end.
  unfold run. rewrite Hrun. cbn [fst].
  rewrite get_session_insert in Hsess. cbn [data orders catalog] in *.
  split; [|by split].
  unfold ready. rewrite Hsess. cbn [state data].
  rewrite lookup_insert_eq.
  rewrite !lookup_insert_ne by done. rewrite lookup_insert_eq.
  rewrite lookup_insert_ne by done. by rewrite lookup_insert_eq.
Qed.

Lemma selection_steps_make_session_ready_witness :
  let w3 := run_events [Update gateway_down (CallbackQuery buyer "game:Genshin Impact");
                        Update gateway_down (CallbackQuery buyer "pkg:60 Genesis Crystals");
                        Update gateway_down (Message buyer (Some " Player123 "))]
              purchased in
  ready (key buyer) "Genshin Impact" "60 Genesis Crystals" "Player123" w3 ∧
  orders w3 = orders purchased ∧
  catalog w3 = catalog purchased.
Proof.
  apply (selection_steps_make_session_ready gateway_down gateway_down gateway_down
           buyer "Genshin Impact" "60 Genesis Crystals" " Player123 " purchased).
  simpl. lia.
Defined.

(** ** The keyboards *)

Lemma elem_of_insert_game (x g : string) (l : list string) :
  x ∈ insert_game g l ↔ x = g ∨ x ∈ l.
Proof.
  induction l as [|h t IH]; simpl.
  - rewrite list_elem_of_singleton, elem_of_nil. tauto.
  - destruct (String.compare g h) eqn:Hcmp.
    + apply String.compare_eq_iff in Hcmp as ->. rewrite elem_of_cons. tauto.
    + rewrite elem_of_cons. tauto.
    + rewrite !elem_of_cons, IH. tauto.
Qed.

Lemma elem_of_select_games (g : string) (cat : list catalog_row) :
  g ∈ select_games cat ↔ ∃ r, r ∈ cat ∧ cat_game r = g.
Proof.
  unfold select_games. induction cat as [|r cat IH]; simpl.
  - rewrite elem_of_nil. split; [done|]. intros (r & Hr & _). by apply elem_of_nil in Hr.
  - rewrite elem_of_insert_game, IH. split.
    + intros [->|(r' & Hr' & Hg)]; [exists r|exists r']; rewrite elem_of_cons; eauto.
    + intros (r' & [->|Hr']%elem_of_cons & Hg); [by left|right; eauto].
Qed.

Lemma insert_game_sorted (g : string) (l : list string) :
  Sorted (λ a b, String.compare a b = Lt) l →
  Sorted (λ a b, String.compare a b = Lt) (insert_game g l).
Proof.
  induction l as [|h t IH]; intros Hs; simpl; [by repeat constructor|].
  destruct (String.compare g h) eqn:Hcmp;
    [done|constructor; [done|by constructor]|].
  apply Sorted_inv in Hs as [Hs Hhd]. constructor; [by apply IH|].
  assert (Hhg : String.compare h g = Lt)
    by (rewrite String.compare_antisym, Hcmp; done).
  destruct t as [|h' t']; simpl; [by constructor|].
  apply HdRel_inv in Hhd.
  destruct (String.compare g h'); by constructor.
Qed.

(** X23. The games keyboard has exactly the games of the catalog: a button
    is on it when and only when it is the button of the game of some catalog
    row, with [game:] and that game as data; the games come in strictly
    ascending order, so none comes twice in a row. *)
Theorem games_kb_has_the_catalog_games (cat : list catalog_row) :
  (∀ b, b ∈ games_kb cat ↔
        ∃ r, r ∈ cat ∧ b = CallbackButton (LGame (cat_game r)) ("game:" +:+ cat_game r)) ∧
  Sorted (λ a b, String.compare a b = Lt) (select_games cat).
Proof.
  split.
  - intros b. unfold games_kb. rewrite list_elem_of_fmap. split.
    + intros (g & -> & (r & Hr & <-)%elem_of_select_games). eauto.
    + intros (r & Hr & ->). exists (cat_game r). split; [done|].
      apply elem_of_select_games. eauto.
  - unfold select_games. induction (cat_game <$> cat) as [|g l IH]; simpl;
      [constructor|by apply insert_game_sorted].
Qed.

Lemma elem_of_insert_by_price (x r : catalog_row) (l : list catalog_row) :
  x ∈ insert_by_price r l ↔ x = r ∨ x ∈ l.
Proof.
  induction l as [|h t IH]; simpl.
  - rewrite list_elem_of_singleton, elem_of_nil. tauto.
  - destruct (PrimFloat.leb _ _); rewrite !elem_of_cons, ?IH; tauto.
Qed.

Lemma elem_of_select_packages (g : string) (r : catalog_row) (cat : list catalog_row) :
  r ∈ select_packages g cat ↔ r ∈ cat ∧ cat_game r = g.
Proof.
  unfold select_packages. induction cat as [|h cat IH]; simpl.
  - rewrite elem_of_nil. tauto.
  - destruct (String.eqb (cat_game h) g) eqn:Hg; simpl.
    + apply String.eqb_eq in Hg. rewrite elem_of_insert_by_price, IH, elem_of_cons.
      split; [intros [->|[? ?]]; eauto|intros [[->|?] ?]; eauto].
    + apply String.eqb_neq in Hg. rewrite IH, elem_of_cons.
      split; [intros [? ?]; eauto|intros [[->|?] ?]; [done|eauto]].
Qed.

Lemma select_price_is_Some (g p : string) (r : catalog_row) (cat : list catalog_row) :
  r ∈ cat → cat_game r = g → cat_package r = p → is_Some (select_price g p cat).
Proof.
  intros Hr Hg Hp. unfold select_price.
  destruct (List.find _ cat) as [r'|] eqn:Hfind; [by eexists|].
  apply list_elem_of_In in Hr.
  pose proof (find_none _ _ Hfind r Hr) as Hno. simpl in Hno.
  rewrite Hg, Hp, !String.eqb_refl in Hno. discriminate.
Qed.

(** X24. Every button of the packages keyboard of a game but the last is
    the button of a catalog row of that game and carries [pkg:] and the
    package of the row; pressed in state [choosing_package] it records that
    package and asks for the nickname, and the game with that package
    resolves in the catalog the keyboard was built from. The last button is
    the back button. *)
Theorem package_button_resolves (e : env) (c : sender) (g : string) (w : world)
    (b : button) :
  state (get_session (key c) w) = Some choosing_package →
  b ∈ packages_kb g (catalog w) →
  b = CallbackButton LBack "back:games" ∨
  ∃ r w', r ∈ catalog w ∧ cat_game r = g ∧
          b = CallbackButton (LPackage (cat_package r) (cat_price_usdt r))
                             ("pkg:" +:+ cat_package r) ∧
          dispatch e (CallbackQuery c ("pkg:" +:+ cat_package r)) w = (w', Returned) ∧
          state (get_session (key c) w') = Some entering_nickname ∧
          data (get_session (key c) w') !! "package" = Some (cat_package r) ∧
          is_Some (select_price g (cat_package r) (catalog w')).
Proof.
  intros Hst Hb. unfold packages_kb in Hb.
  apply elem_of_app in Hb as [Hb|Hb%list_elem_of_singleton]; [|by left].
  right. apply list_elem_of_fmap in Hb as (r & -> & [Hr Hg]%elem_of_select_packages).
  exists r. eexists. split; [done|]. split; [done|]. split; [done|].
  rewrite (dispatch_pkg e c _ w Hst). split; [reflexivity|].
  rewrite get_session_insert. cbn [state data catalog].
  split; [done|]. split; [by rewrite lookup_insert_eq|].
  by eapply select_price_is_Some.
Qed.

Lemma package_button_resolves_witness :
  let w := run_events [Update gateway_down (CallbackQuery buyer "game:Genshin Impact")]
             initial in
  let b := CallbackButton (LPackage "330 Genesis Crystals" 5.5%float)
             "pkg:330 Genesis Crystals" in
  b = CallbackButton LBack "back:games" ∨
  ∃ r w', r ∈ catalog w ∧ cat_game r = "Genshin Impact" ∧
          b = CallbackButton (LPackage (cat_package r) (cat_price_usdt r))
                             ("pkg:" +:+ cat_package r) ∧
          dispatch gateway_down (CallbackQuery buyer ("pkg:" +:+ cat_package r)) w
            = (w', Returned) ∧
          state (get_session (key buyer) w') = Some entering_nickname ∧
          data (get_session (key buyer) w') !! "package" = Some (cat_package r) ∧
          is_Some (select_price "Genshin Impact" (cat_package r) (catalog w')).
Proof.
  apply (package_button_resolves gateway_down buyer "Genshin Impact"
           (run_events [Update gateway_down (CallbackQuery buyer "game:Genshin Impact")]
              initial)).
  - reflexivity.
  - vm_compute. apply list_elem_of_further, list_elem_of_here.
Defined.

(** ** The commit, when it raises *)

(** X25. When the order identifier drawn for the commit is already the [id]
    of a row, the INSERT raises [IntegrityError]: no row is added or changed,
    nothing is sent, and the session stays ready in [choosing_asset]. *)
Theorem commit_with_taken_id_raises (e : env) (c : sender) (a : string) (w : world)
    (g p n : string) (price : float) (invoice pay : pyval) (iid : Z) :
  ready (key c) g p n w →
  select_price g p (catalog w) = Some price →
  create_invoice e a price (description g p n) (order_id_of e) = inr invoice →
  truthy invoice = true →
  get invoice "pay_url" PNone = inr pay →
  get invoice "invoice_id" PNone ≫= int = inr iid →
  int64 (from_id c) && int64 (time_time e) && int64 iid = true →
  bind pay = inr tt →
  existsb (λ r, String.eqb (id r) (order_id_of e)) (orders w) = true →
  dispatch e (CallbackQuery c ("asset:" +:+ a)) w = (w, Raised IntegrityError).
Proof.
  intros Hready Hprice Hinv Htrue Hpay Hiid Hint Hbind Htaken.
  enter_choose_asset Hready. rewrite Hprice.
  fold (description g p n) (order_id_of e). rewrite Hinv, Htrue. simpl.
  rewrite Hpay. unfold mbind, result_bind in Hiid. rewrite Hiid.
  unfold insert_order. simpl. by rewrite Hint, Hbind, Htaken.
Qed.

Lemma commit_with_taken_id_raises_witness :
  let w := run_events [Update gateway_down (CallbackQuery buyer "game:World of Warcraft");
                       Update gateway_down (CallbackQuery buyer "pkg:Gold 100k (EU)");
                       Update gateway_down (Message buyer (Some "Player123"))]
             purchased in
  length (orders w) = 1%nat ∧
  dispatch (gateway 0 "active") (CallbackQuery buyer "asset:TON") w
    = (w, Raised IntegrityError).
Proof.
  split; [reflexivity|].
  apply (commit_with_taken_id_raises (gateway 0 "active") buyer "TON" _
           "World of Warcraft" "Gold 100k (EU)" "Player123" 7%float
           (PDict [("invoice_id", PInt 42); ("pay_url", PStr "https://pay.example/42")])
           (PStr "https://pay.example/42") 42); try reflexivity.
  vm_compute. repeat split; reflexivity.
Defined.

(** X26. When the gateway returns an invoice, a dict, whose [invoice_id] is
    missing or is no integer, [choose_asset] raises at [int(...)]: no row is
    added, nothing is sent to the buyer, and the session stays ready in
    [choosing_asset]. *)
Theorem commit_without_invoice_id_raises (e : env) (c : sender) (a : string) (w : world)
    (g p n : string) (price : float) (d : list (string * pyval)) (ex : exn) :
  ready (key c) g p n w →
  select_price g p (catalog w) = Some price →
  create_invoice e a price (description g p n) (order_id_of e) = inr (PDict d) →
  d ≠ [] →
  int (default PNone (assoc "invoice_id" d)) = inl ex →
  dispatch e (CallbackQuery c ("asset:" +:+ a)) w = (w, Raised ex).
Proof.
  intros Hready Hprice Hinv Hd Hint.
  enter_choose_asset Hready. rewrite Hprice.
  fold (description g p n) (order_id_of e). rewrite Hinv.
  destruct d as [|kv d']; [done|]. simpl. simpl in Hint. by rewrite Hint.
Qed.

Lemma commit_without_invoice_id_raises_witness :
  dispatch gateway_no_id (CallbackQuery buyer "asset:USDT") (run_events purchase initial)
    = (run_events purchase initial, Raised TypeError).
Proof.
  apply (commit_without_invoice_id_raises gateway_no_id buyer "USDT" _
           "Genshin Impact" "60 Genesis Crystals" "Player123" 0x1.199999999999ap+0%float
           [("pay_url", PStr "https://pay.example/42")] TypeError); try reflexivity.
  - vm_compute. repeat split; reflexivity.
  - discriminate.
Defined.

(** ** The sample catalog *)

Lemma initial_catalog : catalog initial = ensure_sample_catalog 0 [].
Proof. reflexivity. Qed.

(** X27. [ensure_sample_catalog] fills an empty catalog only: a catalog with
    a row is left as it is, a second call changes nothing, and after the call
    on an empty catalog the three sample packages resolve at their prices. *)
Theorem ensure_sample_catalog_fills_empty_only (seq seq' : Z) (cat : list catalog_row) :
  (cat ≠ [] → ensure_sample_catalog seq cat = cat) ∧
  ensure_sample_catalog seq' (ensure_sample_catalog seq cat)
    = ensure_sample_catalog seq cat ∧
  (cat = [] →
   select_price "Genshin Impact" "60 Genesis Crystals" (ensure_sample_catalog seq cat)
     = Some 0x1.199999999999ap+0%float ∧
   select_price "Genshin Impact" "330 Genesis Crystals" (ensure_sample_catalog seq cat)
     = Some 5.5%float ∧
   select_price "World of Warcraft" "Gold 100k (EU)" (ensure_sample_catalog seq cat)
     = Some 7%float).
Proof.
  split; [|split].
  - intros Hne. unfold ensure_sample_catalog. by destruct cat.
  - unfold ensure_sample_catalog. by destruct cat.
  - by intros ->.
Qed.
